(** * Buster: outcome derivation, beacon verifier, seed store, matchmaking

    A shallow embedding of the Python sources of the Buster protocol:

    - [demo/game.py] and [demo/verify.py]: the range derivation
      [calculate_outcome], the beacon round store of [DrandVerifier]
      and its [verify_game];
    - [legacy/server/app/game]: the two player dice derivation;
    - [legacy/server/app/randomness]: [randomness_to_int];
    - [protocol/seed.py]: the commit-reveal [SeedManager];
    - [legacy/server/app/matching]: the [MatchmakingQueue].

    Python integers are unbounded and are modelled by [Z]; [%] is the
    floor modulo, whose sign follows the divisor as [Z.modulo] does, and
    raises [ZeroDivisionError] on a zero divisor; [>>] is [Z.shiftr].
    A [str] is a [string] read as ASCII text, [bytes] is a [list byte].
    A call that may raise returns a [result]; only the class of the
    exception is kept. *)

From Stdlib Require Import ZArith String Ascii DecimalString.
From Stdlib.Strings Require Import Byte.
From stdpp Require Import gmap strings list.

Local Open Scope Z_scope.

(** ** Exceptions and results *)

Inductive exn : Type :=
| ValueError
| KeyError
| IndexError
| ZeroDivisionError.

Inductive result (A : Type) : Type :=
| Ok (a : A)
| Raise (e : exn).

Arguments Ok {A} a.
Arguments Raise {A} e.

#[global] Instance result_ret : MRet result := fun A a => Ok a.

#[global] Instance result_bind : MBind result := fun A B k r =>
  match r with
  | Ok a => k a
  | Raise e => Raise e
  end.

(** [a % b] on Python integers. *)
Definition py_mod (a b : Z) : result Z :=
  if b =? 0 then Raise ZeroDivisionError else Ok (a mod b).

(** The decimal text of an integer, with a minus sign when negative. *)
Definition str_of_int (n : Z) : string :=
  NilZero.string_of_int (Z.to_int n).

(** ** The Python builtins the sources call

    [int(s, 16)], [bytes.hex] and [bytes.fromhex] follow CPython's
    [PyLong_FromString] and [_PyBytes_FromHex].  The reading of text is
    that of ASCII strings: outside ASCII, [int] and [str.strip] also know
    the decimal digits and the blanks of Unicode, which the model does
    not; what is proved of a refusal is therefore stated for ASCII
    arguments. *)

Module Py.

(** [sys.get_int_max_str_digits()]: no limit (the value 0, and every
    interpreter before the limit existed), or a number of digits that is
    at least the threshold 640; the default 4300 is [at_least_640 3660]. *)
Inductive int_max_str_digits : Type :=
| no_limit
| at_least_640 (extra : nat).

(** The number of decimal digits of [n], without the sign. *)
Definition decimal_digits (n : Z) : nat :=
  String.length (str_of_int (Z.abs n)).

(** A conversion between [int] and decimal text is refused for more
    digits than the limit. *)
Definition exceeds (limit : int_max_str_digits) (digits : nat) : bool :=
  match limit with
  | no_limit => false
  | at_least_640 extra => (640 + extra <? digits)%nat
  end.

(** [str(n)] and the field [{n}] of an f-string for an integer: the
    decimal text, or [ValueError] when [n] has more digits than the
    limit. *)
Definition str_int (limit : int_max_str_digits) (n : Z) : result string :=
  if exceeds limit (decimal_digits n) then Raise ValueError
  else Ok (str_of_int n).

(** [n] has no more digits than the limit. *)
Definition fits (limit : int_max_str_digits) (n : Z) : bool :=
  negb (exceeds limit (decimal_digits n)).

(** [Py_ISSPACE]: tab, line feed, vertical tab, form feed, carriage
    return and space. *)
Definition ISSPACE (c : ascii) : bool :=
  let n := Z.of_N (N_of_ascii c) in
  ((9 <=? n) && (n <=? 13)) || (n =? 32).

(** [_PyLong_DigitValue]: the value of a digit in bases up to 36, and 37
    for every other character. *)
Definition DigitValue (c : ascii) : Z :=
  let n := Z.of_N (N_of_ascii c) in
  if (48 <=? n) && (n <=? 57) then n - 48
  else if (97 <=? n) && (n <=? 122) then n - 87
  else if (65 <=? n) && (n <=? 90) then n - 55
  else 37.

Fixpoint skip_spaces (s : string) : string :=
  match s with
  | String c r => if ISSPACE c then skip_spaces r else s
  | EmptyString => s
  end.

(** The digit loop of [long_from_binary_base]: digits below [base] and
    single underscores between them.  [prev] is the character read
    before, [digits] counts the digits, [acc] is their value.  [None] is
    the syntax error of a doubled or trailing underscore; otherwise the
    value, the digit count and the unread rest are returned. *)
Fixpoint scan_digits (base : Z) (s : string) (prev : ascii) (digits : nat)
    (acc : Z) : option (Z * nat * string) :=
  let stop := if Ascii.eqb prev "_" then None else Some (acc, digits, s) in
  match s with
  | String c r =>
      if Ascii.eqb c "_" then
        if Ascii.eqb prev "_" then None
        else scan_digits base r c digits acc
      else if DigitValue c <? base then
        scan_digits base r c (S digits) (acc * base + DigitValue c)
      else stop
  | EmptyString => stop
  end.

(** The optional sign: [+1] or [-1], and what follows the sign. *)
Definition strip_sign (str : string) : Z * string :=
  match str with
  | String c r =>
      if Ascii.eqb c "+" then (1, r)
      else if Ascii.eqb c "-" then (-1, r)
      else (1, str)
  | EmptyString => (1, str)
  end.

(** The optional [0x] or [0X] of base 16; one underscore is allowed
    after it. *)
Definition strip_prefix16 (str : string) : string :=
  match str with
  | String c (String x r) =>
      if Ascii.eqb c "0" && (Ascii.eqb x "x" || Ascii.eqb x "X") then
        match r with
        | String u r' => if Ascii.eqb u "_" then r' else r
        | EmptyString => r
        end
      else str
  | _ => str
  end.

Definition starts_with_underscore (str : string) : bool :=
  match str with
  | String c _ => Ascii.eqb c "_"
  | EmptyString => false
  end.

(** [int(s, 16)]: leading blanks, an optional sign, an optional prefix,
    the digits, trailing blanks.  A literal that starts with an
    underscore or has no digit is refused. *)
Definition int16 (s : string) : result Z :=
  let str := skip_spaces s in
  let '(sign, str) := strip_sign str in
  let str := strip_prefix16 str in
  if starts_with_underscore str then Raise ValueError
  else
    match scan_digits 16 str Ascii.zero 0 0 with
    | None => Raise ValueError
    | Some (z, digits, rest) =>
        match digits with
        | O => Raise ValueError
        | S _ =>
            match skip_spaces rest with
            | EmptyString => Ok (sign * z)
            | String _ _ => Raise ValueError
            end
        end
    end.

(** [s.startswith(p)] and the slice [s[n:]]. *)
Fixpoint startswith (s p : string) {struct p} : bool :=
  match p, s with
  | EmptyString, _ => true
  | String a p', String b s' => Ascii.eqb a b && startswith s' p'
  | String _ _, EmptyString => false
  end.

Fixpoint slice_from (n : nat) (s : string) : string :=
  match n, s with
  | O, _ => s
  | S n', String _ r => slice_from n' r
  | S _, EmptyString => EmptyString
  end.

(** The character ["0123456789abcdef"[n]]. *)
Definition hexdigit (n : N) : ascii :=
  if (n <? 10)%N then ascii_of_N (48 + n) else ascii_of_N (87 + n).

(** [bs.hex()]: two lower case digits per byte, high nibble first. *)
Fixpoint hex (bs : list byte) : string :=
  match bs with
  | [] => EmptyString
  | b :: r =>
      String (hexdigit (Byte.to_N b / 16))
        (String (hexdigit (Byte.to_N b mod 16)) (hex r))
  end.

(** The cast [(unsigned char) z]. *)
Definition uchar (z : Z) : byte :=
  match Byte.of_N (Z.to_N (z mod 256)) with
  | Some b => b
  | None => x00
  end.

(** [bytes.fromhex(s)]: blanks are skipped before each pair of digits;
    anything else than a pair of hexadecimal digits is a [ValueError]. *)
Fixpoint fromhex (s : string) : result (list byte) :=
  match s with
  | EmptyString => Ok []
  | String c r =>
      if ISSPACE c then fromhex r
      else
        let top := DigitValue c in
        if 16 <=? top then Raise ValueError
        else
          match r with
          | EmptyString => Raise ValueError
          | String d r' =>
              let bot := DigitValue d in
              if 16 <=? bot then Raise ValueError
              else
                bs ← fromhex r';
                Ok (uchar (Z.shiftl top 4 + bot) :: bs)
          end
  end.

(** The hexadecimal digits of [n >= 0], most significant first, put
    before [acc]; [fuel] bounds the number of digits. *)
Fixpoint hex_digits_of (fuel : nat) (n : Z) (acc : string) : string :=
  match fuel with
  | O => acc
  | S fuel' =>
      let acc' := String (hexdigit (Z.to_N (n mod 16))) acc in
      if n / 16 =? 0 then acc' else hex_digits_of fuel' (n / 16) acc'
  end.

(** [hex(n)]: [0x] and the digits of [abs(n)] in lower case, after a
    minus sign when [n] is negative.  A number has at most
    [log2 (abs n) + 1] digits. *)
Definition hex_int (n : Z) : string :=
  let digits :=
    hex_digits_of (S (Z.to_nat (Z.log2 (Z.abs n)))) (Z.abs n) EmptyString in
  if n <? 0 then "-0x" +:+ digits else "0x" +:+ digits.






(** [s.replace(old, new)] for a non-empty [old]: the occurrences of
    [old] are replaced from left to right, and the search resumes after
    each replaced occurrence.  [skip] counts the characters of the
    occurrence still to pass over. *)
Fixpoint replace_from (old new : string) (skip : nat) (s : string) : string :=
  match s with
  | EmptyString => EmptyString
  | String c r =>
      match skip with
      | S skip' => replace_from old new skip' r
      | O =>
          if startswith s old then
            new +:+ replace_from old new (String.length old - 1) r
          else String c (replace_from old new 0 r)
      end
  end.

Definition replace (s old new : string) : string := replace_from old new 0 s.

(** [max(xs)] over integers; an empty argument is a [ValueError]. *)
Definition max_int (xs : list Z) : result Z :=
  match xs with
  | [] => Raise ValueError
  | x :: r => Ok (foldl Z.max x r)
  end.

End Py.

(** ** legacy/server/app/game: [DiceGame] *)

Module DiceGame.

Record rolls : Type := {
  player1_roll : Z;
  player2_roll : Z;
  winner : Z;
  message : string
}.

(** [DiceGame.derive_rolls_from_drand(drand_value)]; the modulus is the
    literal 6, so [%] cannot raise here, and the rolls the messages show
    have one digit, which no digit limit refuses. *)
Definition derive_rolls_from_drand (drand_value : Z) : rolls :=
  let player1_roll := (drand_value mod 6) + 1 in
  let player2_roll := ((Z.shiftr drand_value 8) mod 6) + 1 in
  if player1_roll >? player2_roll then
    {| player1_roll := player1_roll; player2_roll := player2_roll;
       winner := 1;
       message := "Player 1 wins with " +:+ str_of_int player1_roll
                  +:+ " vs " +:+ str_of_int player2_roll |}
  else if player2_roll >? player1_roll then
    {| player1_roll := player1_roll; player2_roll := player2_roll;
       winner := 2;
       message := "Player 2 wins with " +:+ str_of_int player2_roll
                  +:+ " vs " +:+ str_of_int player1_roll |}
  else
    {| player1_roll := player1_roll; player2_roll := player2_roll;
       winner := 1;
       message := "Tie! Both rolled " +:+ str_of_int player1_roll
                  +:+ ". Player 1 wins on tie." |}.

(** [DiceGame.validate_rolls(player1, player2)]. *)
Definition validate_rolls (player1 player2 : Z) : bool :=
  (1 <=? player1) && (player1 <=? 6) && (1 <=? player2) && (player2 <=? 6).

End DiceGame.

(** ** demo/verify.py: [DrandVerifier]

    [KNOWN_DRAND_ROUNDS] is one dictionary object created when the module
    is loaded.  Objects live in a heap and are named by their address;
    a [DrandVerifier] keeps in [known_rounds] the address of the
    dictionary it was given, so that two verifiers may hold the same
    object. *)

Module verify.

Record round_data : Type := {
  round : Z;
  randomness : string;
  signature : option string;
  timestamp : Z;
  verified : bool;
  source : option string
}.

Abbreviation loc := positive (only parsing).
Abbreviation rounds_dict := (gmap Z round_data) (only parsing).
Abbreviation heap := (gmap positive (gmap Z round_data)) (only parsing).

(** The address of the module level dictionary. *)
Definition KNOWN_DRAND_ROUNDS : loc := 1%positive.

(** The literal bound to [KNOWN_DRAND_ROUNDS]. *)
Definition known_rounds_literal : rounds_dict :=
  <[17598 := {|
      round := 17598;
      randomness := "0x2e0a3bbff600011a0ae21c92e8d4c99dda94da06284dfe90032bae3f7ebc6339";
      signature := Some "a9cd1e7e6d6cb8822b4be736b8bc1b682ba93c321073ed8c324a87e2091c1d97dd4a48681d9e8e6824fa15c0f8cc471e0515f477aaed546cef4119c7346220399f91c0dedb0208ad5e679b0627630b34d6aa8bc7c400973a2738d40594f4aa60";
      timestamp := 1708643700;
      verified := true;
      source := Some "https://drand.love/" |}]>
  (<[13629 := {|
      round := 13629;
      randomness := "0x8d0a7b3f9c2e1a4f7d5b9c3e8a1f4b7d9c2e5f8a1b4c7d9e0f3a5c7e9f1b";
      signature := Some "0x...";
      timestamp := 1708643700;
      verified := true;
      source := None |}]>
  (<[13630 := {|
      round := 13630;
      randomness := "0x2f4e8c1b9a3d7f5e2c6a9b1d4e7f0a3b8c1d4e7f0a3b8c1d4e7f0a3b8c1d";
      signature := Some "0x...";
      timestamp := 1708643703;
      verified := true;
      source := None |}]> ∅)).

(** The heap once the module is loaded. *)
Definition module_heap : heap :=
  {[ KNOWN_DRAND_ROUNDS := known_rounds_literal ]}.

Record DrandVerifier : Type := { known_rounds : loc }.

(** [DrandVerifier()]: [self.known_rounds = KNOWN_DRAND_ROUNDS] binds the
    attribute to the existing object; nothing is allocated or copied. *)
Definition init (h : heap) : DrandVerifier * heap :=
  ({| known_rounds := KNOWN_DRAND_ROUNDS |}, h).

(** [add_round(round_num, randomness, timestamp=None)]; [now] is the
    reading [int(datetime.now().timestamp())] of the clock.  The item
    assignment updates the dictionary object in place. *)
Definition add_round (now : Z) (self : DrandVerifier) (round_num : Z)
    (randomness : string) (timestamp : option Z) (h : heap) : heap :=
  let timestamp :=
    match timestamp with
    | None => now
    | Some t => t
    end in
  alter (insert round_num
           {| round := round_num; randomness := randomness;
              signature := None; timestamp := timestamp;
              verified := true; source := None |})
        (known_rounds self) h.

(** [get_round(round_num)]. *)
Definition get_round (self : DrandVerifier) (round_num : Z) (h : heap)
  : option round_data :=
  d ← h !! known_rounds self; d !! round_num.

(** [get_latest_round()]: [None] for an empty store, else the entry
    under the greatest key. *)
Definition get_latest_round (self : DrandVerifier) (h : heap)
  : result (option round_data) :=
  match h !! known_rounds self with
  | None => Ok None
  | Some d =>
      if decide (d = ∅) then Ok None
      else
        latest ← Py.max_int (map_to_list d).*1;
        match d !! latest with
        | Some round_data => Ok (Some round_data)
        | None => Raise KeyError
        end
  end.

(** [randomness_to_int(randomness_hex)]. *)
Definition randomness_to_int (self : DrandVerifier) (randomness_hex : string)
  : result Z :=
  Py.int16 randomness_hex.

(** [calculate_outcome(drand_value, min_val=1, max_val=6)]. *)
Definition calculate_outcome (self : DrandVerifier)
    (drand_value min_val max_val : Z) : result Z :=
  let range_size := max_val - min_val + 1 in
  r ← py_mod drand_value range_size;
  let outcome := r + min_val in
  Ok outcome.

(** The two dictionaries [verify_game] returns. *)
Inductive verify_result : Type :=
| NotFound (valid : bool) (error : string) (claimed_outcome : Z)
| Verified (valid : bool) (round : Z) (randomness : string)
    (claimed_outcome actual_outcome : Z) (timestamp : Z)
    (explanation : string).

(** [result["valid"]] and [result["actual_outcome"]], the latter [None]
    when the round is unknown. *)
Definition valid (r : verify_result) : bool :=
  match r with
  | NotFound v _ _ => v
  | Verified v _ _ _ _ _ _ => v
  end.

Definition actual_outcome (r : verify_result) : option Z :=
  match r with
  | NotFound _ _ _ => None
  | Verified _ _ _ _ a _ _ => Some a
  end.

(** [verify_game(round_num, claimed_outcome, min_val=1, max_val=6)],
    under the digit limit [limit] of the interpreter, which the f-strings
    of the error message and of the explanation are subject to.  No
    dictionary in the store is empty, so [not round_data] holds exactly
    when [get_round] returned [None]. *)
Definition verify_game (limit : Py.int_max_str_digits) (self : DrandVerifier)
    (round_num claimed_outcome min_val max_val : Z) (h : heap)
  : result verify_result :=
  match get_round self round_num h with
  | None =>
      round_text ← Py.str_int limit round_num;
      Ok (NotFound false
            ("Round " +:+ round_text +:+ " not found in local database")
            claimed_outcome)
  | Some round_data =>
      let drand_hex := randomness round_data in
      drand_int ← randomness_to_int self drand_hex;
      actual_outcome ← calculate_outcome self drand_int min_val max_val;
      let is_valid := actual_outcome =? claimed_outcome in
      drand_text ← Py.str_int limit drand_int;
      size_text ← Py.str_int limit (max_val - min_val + 1);
      min_text ← Py.str_int limit min_val;
      outcome_text ← Py.str_int limit actual_outcome;
      Ok (Verified is_valid round_num drand_hex claimed_outcome
            actual_outcome (timestamp round_data)
            ("(" +:+ drand_text +:+ " % " +:+ size_text +:+ ") + "
             +:+ min_text +:+ " = " +:+ outcome_text))
  end.

End verify.

(** ** demo/game.py *)

Module game.

(** [calculate_outcome(drand_value, min_val=1, max_val=6)]. *)
Definition calculate_outcome (drand_value min_val max_val : Z) : result Z :=
  let range_size := max_val - min_val + 1 in
  r ← py_mod drand_value range_size;
  let outcome := r + min_val in
  Ok outcome.

(** [verify_outcome(drand_value, claimed_outcome, min_val=1, max_val=6)]. *)
Definition verify_outcome (drand_value claimed_outcome min_val max_val : Z)
  : result bool :=
  calculated ← calculate_outcome drand_value min_val max_val;
  Ok (calculated =? claimed_outcome).


(** [fetch_drand_value(drand_round=17598, verifier=None)]; [randbits] is
    the draw [secrets.randbits(256)] of the fallback.  Without a
    verifier one is constructed.  A stored round is a non-empty
    dictionary, so [if round_data] tests for [None]. *)
Definition fetch_drand_value (randbits : Z) (drand_round : Z)
    (verifier : option verify.DrandVerifier)
    (h : gmap positive (gmap Z verify.round_data))
  : result Z * gmap positive (gmap Z verify.round_data) :=
  let '(verifier, h) :=
    match verifier with
    | None => verify.init h
    | Some v => (v, h)
    end in
  match verify.get_round verifier drand_round h with
  | Some round_data =>
      let drand_hex := verify.randomness round_data in
      (Py.int16 drand_hex, h)
  | None => (Ok randbits, h)
  end.

(** [format_drand_value(drand_value)]. *)
Definition format_drand_value (drand_value : Z) : string :=
  Py.hex_int drand_value.

End game.

(** ** legacy/server/app/randomness: [DrandClientSync] *)

Module randomness.

(** [DrandClientSync.randomness_to_int(randomness_hex)], which drops a
    leading [0x] itself before it calls [int]. *)
Definition randomness_to_int (randomness_hex : string) : result Z :=
  let randomness_hex :=
    if Py.startswith randomness_hex "0x" then Py.slice_from 2 randomness_hex
    else randomness_hex in
  Py.int16 randomness_hex.

End randomness.

(** ** protocol/seed.py: [SeedManager]

    [hashlib.sha256(b).hexdigest()] is a parameter of the development,
    and the 32 bytes [secrets.token_bytes(32)] draws are an argument of
    [create_seed]. *)

Module seed.

Section SeedManager.

Variable sha256_hexdigest : list byte -> string.

(** [self._seeds]: seat -> (seed_bytes, commitment_hex). *)
Abbreviation seeds := (gmap string (list byte * string)) (only parsing).

(** [SeedManager()]. *)
Definition init : seeds := ∅.

(** [create_seed(seat)], with [raw] the fresh token; the store is
    returned with the outcome of the call. *)
Definition create_seed (raw : list byte) (seat : string) (_seeds : seeds)
  : result string * seeds :=
  match _seeds !! seat with
  | Some _ => (Raise ValueError, _seeds)
  | None =>
      let commitment := sha256_hexdigest raw in
      (Ok commitment, <[seat := (raw, commitment)]> _seeds)
  end.

(** [reveal_seed(seat)]. *)
Definition reveal_seed (seat : string) (_seeds : seeds) : result string :=
  match _seeds !! seat with
  | None => Raise KeyError
  | Some (raw, _) => Ok (Py.hex raw)
  end.

(** [verify_commitment(seat, seed_hex)]. *)
Definition verify_commitment (seat seed_hex : string) (_seeds : seeds)
  : result bool :=
  match _seeds !! seat with
  | None => Ok false
  | Some (_, commitment) =>
      seed_bytes ← Py.fromhex seed_hex;
      let computed := sha256_hexdigest seed_bytes in
      Ok (String.eqb computed commitment)
  end.

End SeedManager.

End seed.

(** ** legacy/server/app/matching: [MatchmakingQueue]

    The types of [amount] and [joined_at] are parameters: the queue
    stores both and never looks into them. *)

Module matching.

Section MatchmakingQueue.

Variables float datetime : Type.

Record PendingPlayer : Type := {
  player_address : string;
  bet_id : Z;
  amount : float;
  game_type : string;
  joined_at : datetime
}.

(** [MatchmakingQueue()]: [self.queue = []]. *)
Definition init : list PendingPlayer := [].

(** [add_player(player_address, bet_id, amount, game_type)], with [now]
    the reading [datetime.now()]. *)
Definition add_player (now : datetime) (player_address : string)
    (bet_id : Z) (amount : float) (game_type : string)
    (queue : list PendingPlayer) : list PendingPlayer :=
  let player :=
    {| player_address := player_address; bet_id := bet_id;
       amount := amount; game_type := game_type; joined_at := now |} in
  queue ++ [player].

(** [queue.pop(i)] for an index [i >= 0]. *)
Definition pop (i : nat) (queue : list PendingPlayer)
  : result (PendingPlayer * list PendingPlayer) :=
  match queue !! i with
  | Some player => Ok (player, delete i queue)
  | None => Raise IndexError
  end.

(** The loop [for i, player in enumerate(self.queue)], entered at index
    [i] with [rest] still to visit. *)
Fixpoint find_match_loop (game_type0 : string) (i : nat)
    (rest queue : list PendingPlayer)
  : result (option PendingPlayer * list PendingPlayer) :=
  match rest with
  | [] => Ok (None, queue)
  | player :: rest' =>
      if String.eqb (game_type player) game_type0 then
        '(_, queue') ← pop i queue;
        Ok (Some player, queue')
      else find_match_loop game_type0 (S i) rest' queue
  end.

(** [find_match(game_type)]. *)
Definition find_match (game_type0 : string) (queue : list PendingPlayer)
  : result (option PendingPlayer * list PendingPlayer) :=
  find_match_loop game_type0 0 queue queue.

(** [remove_player(player_address)]. *)
Definition remove_player (player_address0 : string)
    (queue : list PendingPlayer) : list PendingPlayer :=
  filter (fun p => player_address p ≠ player_address0) queue.

(** [get_queue_size()]. *)
Definition get_queue_size (queue : list PendingPlayer) : Z :=
  Z.of_nat (length queue).

End MatchmakingQueue.

Arguments player_address {float datetime} _.
Arguments bet_id {float datetime} _.
Arguments amount {float datetime} _.
Arguments game_type {float datetime} _.
Arguments joined_at {float datetime} _.
Arguments init {float datetime}.
Arguments add_player {float datetime} now player_address bet_id amount
  game_type queue.
Arguments pop {float datetime} i queue.
Arguments find_match_loop {float datetime} game_type0 i rest queue.
Arguments find_match {float datetime} game_type0 queue.
Arguments remove_player {float datetime} player_address0 queue.
Arguments get_queue_size {float datetime} queue.

End matching.

(** ** rename_project.py *)

Module rename_project.




End rename_project.

(** ** Vocabulary of the specification *)

Module Spec.

(** The place of a character in a string, counted from 0. *)
Fixpoint index_of (c : ascii) (s : string) : option nat :=
  match s with
  | EmptyString => None
  | String x r =>
      if Ascii.eqb c x then Some O
      else option_map S (index_of c r)
  end.

(** The value of a hexadecimal digit is its place among the sixteen
    digits, written in lower or in upper case. *)
Definition hexdigit_value (c : ascii) : option Z :=
  match index_of c "0123456789abcdef" with
  | Some n => Some (Z.of_nat n)
  | None => option_map Z.of_nat (index_of c "0123456789ABCDEF")
  end.

Definition is_hexdigit (c : ascii) : bool :=
  match hexdigit_value c with
  | Some _ => true
  | None => false
  end.

Fixpoint all_hexdigits (s : string) : bool :=
  match s with
  | EmptyString => true
  | String c r => is_hexdigit c && all_hexdigits r
  end.

(** The digits of a hex string: what follows the [0x] prefix, if any. *)
Definition hex_digits (s : string) : string :=
  match s with
  | String c (String x r) =>
      if Ascii.eqb c "0" && Ascii.eqb x "x" then r else s
  | _ => s
  end.

(** A valid hex string: at least one hexadecimal digit and nothing but
    hexadecimal digits, with or without the [0x] prefix. *)
Definition valid_hex (s : string) : bool :=
  match hex_digits s with
  | EmptyString => false
  | String _ _ as d => all_hexdigits d
  end.

(** The unsigned number a string of hexadecimal digits denotes: each
    digit weighs sixteen to the number of digits after it. *)
Fixpoint hex_value (d : string) : Z :=
  match d with
  | EmptyString => 0
  | String c r =>
      default 0 (hexdigit_value c) * 16 ^ Z.of_nat (String.length r)
      + hex_value r
  end.

(** The characters of ASCII. *)
Definition is_ascii (c : ascii) : bool := (N_of_ascii c <? 128)%N.

(** The characters [int] may read in a base 16 literal. *)
Definition int16_alphabet (c : ascii) : bool :=
  is_hexdigit c || Py.ISSPACE c
  || Ascii.eqb c "x" || Ascii.eqb c "X" || Ascii.eqb c "_"
  || Ascii.eqb c "+" || Ascii.eqb c "-".

Fixpoint string_forall (P : ascii -> bool) (s : string) : bool :=
  match s with
  | EmptyString => true
  | String c r => P c && string_forall P r
  end.

Fixpoint string_exists (P : ascii -> bool) (s : string) : bool :=
  match s with
  | EmptyString => false
  | String c r => P c || string_exists P r
  end.

(** Strings that are no base 16 literal whatever the digits and blanks
    of Unicode: those with an ASCII character outside the alphabet of
    the literals, and the ASCII strings without a hexadecimal digit. *)
Definition unreadable16 (s : string) : bool :=
  string_exists (fun c => is_ascii c && negb (int16_alphabet c)) s
  || (string_forall is_ascii s && negb (string_exists is_hexdigit s)).

(** What the table of [int] knows of a character, against the digits of
    the specification. *)
Definition char_check (c : ascii) : bool :=
  match hexdigit_value c with
  | Some v =>
      (Py.DigitValue c =? v) && (0 <=? v) && (v <? 16)
      && negb (Py.ISSPACE c) && negb (Ascii.eqb c "_")
      && negb (Ascii.eqb c "+") && negb (Ascii.eqb c "-")
      && negb (Ascii.eqb c "x") && negb (Ascii.eqb c "X")
  | None => 16 <=? Py.DigitValue c
  end.

(** [s] is [r] with characters of the literal alphabet put before. *)
Definition extends (r s : string) : Prop :=
  exists pre : string,
    s = pre +:+ r /\ string_forall int16_alphabet pre = true.




Section Enqueue.

Context {float datetime : Type}.

(** An [add_player] call: the clock reading and the four arguments. *)
Record enqueue_request : Type := {
  req_now : datetime;
  req_address : string;
  req_bet_id : Z;
  req_amount : float;
  req_game_type : string
}.

(** The entry a request leaves in the queue. *)
Definition pending_of (r : enqueue_request)
  : matching.PendingPlayer float datetime :=
  {| matching.player_address := req_address r;
     matching.bet_id := req_bet_id r;
     matching.amount := req_amount r;
     matching.game_type := req_game_type r;
     matching.joined_at := req_now r |}.

(** The queue after the calls [reqs], made in this order. *)
Definition enqueue_all (reqs : list enqueue_request)
    (queue : list (matching.PendingPlayer float datetime))
  : list (matching.PendingPlayer float datetime) :=
  foldl (fun q r =>
           matching.add_player (req_now r) (req_address r) (req_bet_id r)
             (req_amount r) (req_game_type r) q)
        queue reqs.

End Enqueue.

Arguments enqueue_request : clear implicits.

(** Every entry of a seed store pairs a seed with its digest. *)
Definition seeds_consistent (sha256_hexdigest : list byte -> string)
    (st : gmap string (list byte * string)) : Prop :=
  forall (seat : string) (raw : list byte) (commitment : string),
    st !! seat = Some (raw, commitment) ->
    commitment = sha256_hexdigest raw.

(** The heaps a program reaches once [verify] is loaded, by constructing
    verifiers and calling [add_round] on any of them. *)
Inductive reachable : gmap positive (gmap Z verify.round_data) -> Prop :=
| reachable_load : reachable verify.module_heap
| reachable_init h : reachable h -> reachable (snd (verify.init h))
| reachable_add_round now round_num randomness timestamp h0 h :
    reachable h0 -> reachable h ->
    reachable (verify.add_round now (fst (verify.init h0)) round_num
                 randomness timestamp h).

(** The module level dictionary is in the heap and holds the three
    rounds of its literal. *)
Definition known_rounds_stored (h : gmap positive (gmap Z verify.round_data))
  : Prop :=
  exists d : gmap Z verify.round_data,
    h !! verify.KNOWN_DRAND_ROUNDS = Some d /\
    forall n : Z, n ∈ [17598; 13629; 13630] -> is_Some (d !! n).

(** The four numbers the explanation of [verify_game] shows have no more
    digits than the limit. *)
Definition explanation_fits (limit : Py.int_max_str_digits)
    (drand_int min max outcome : Z) : bool :=
  Py.fits limit drand_int && Py.fits limit (max - min + 1)
  && Py.fits limit min && Py.fits limit outcome.

(** The entry [add_round] stores. *)
Definition added_round (now round_num : Z) (randomness : string)
    (timestamp : option Z) : verify.round_data :=
  {| verify.round := round_num;
     verify.randomness := randomness;
     verify.signature := None;
     verify.timestamp := default now timestamp;
     verify.verified := true;
     verify.source := None |}.

End Spec.

(** * Properties *)

(** ** Outcome derivation *)

Lemma py_mod_positive (a b : Z) :
  0 < b -> py_mod a b = Ok (a mod b) /\ 0 <= a mod b < b.
Proof.
  intros Hb. unfold py_mod.
  destruct (Z.eqb_spec b 0) as [->|_]; [lia|].
  split; [reflexivity|]. apply Z.mod_pos_bound; lia.
Qed.

Lemma py_mod_negative (a b : Z) :
  b < 0 -> py_mod a b = Ok (a mod b) /\ b < a mod b <= 0.
Proof.
  intros Hb. unfold py_mod.
  destruct (Z.eqb_spec b 0) as [->|_]; [lia|].
  split; [reflexivity|]. apply Z.mod_neg_bound; lia.
Qed.

Lemma verify_calculate_outcome_eq (self : verify.DrandVerifier)
    (drand_value min_val max_val : Z) :
  verify.calculate_outcome self drand_value min_val max_val
  = game.calculate_outcome drand_value min_val max_val.
Proof. reflexivity. Qed.

(** C1: for [min <= max] and a non-negative [randomValue],
    [calculate_outcome] returns [(randomValue mod (max - min + 1)) + min],
    which lies in [[min, max]]; the function of [game.py] and the method
    of every [DrandVerifier] return this same value, whatever the
    verifier. *)
Theorem calculate_outcome_in_range (randomValue min max : Z) :
  min <= max -> 0 <= randomValue ->
  exists outcome : Z,
    outcome = randomValue mod (max - min + 1) + min /\
    min <= outcome <= max /\
    game.calculate_outcome randomValue min max = Ok outcome /\
    forall self : verify.DrandVerifier,
      verify.calculate_outcome self randomValue min max = Ok outcome.
Proof.
  intros Hle _.
  destruct (py_mod_positive randomValue (max - min + 1)) as [Heq Hb]; [lia|].
  exists (randomValue mod (max - min + 1) + min).
  assert (Hg : game.calculate_outcome randomValue min max
               = Ok (randomValue mod (max - min + 1) + min)).
  { unfold game.calculate_outcome. cbn zeta. rewrite Heq. reflexivity. }
  repeat split; try lia; [exact Hg|].
  intros self. rewrite verify_calculate_outcome_eq. exact Hg.
Qed.

Lemma calculate_outcome_in_range_witness :
  exists outcome : Z,
    outcome = 987654321 mod (6 - 1 + 1) + 1 /\
    1 <= outcome <= 6 /\
    game.calculate_outcome 987654321 1 6 = Ok outcome /\
    forall self : verify.DrandVerifier,
      verify.calculate_outcome self 987654321 1 6 = Ok outcome.
Proof. apply (calculate_outcome_in_range 987654321 1 6); lia. Defined.

(** C4, as the specification states it, fails: with [min = 6] and
    [max = 1] the call returns 5 and raises nothing. *)
Lemma calculate_outcome_reversed_range_returns :
  1 < 6 /\
  game.calculate_outcome 7 6 1 = Ok 5 /\
  verify.calculate_outcome (fst (verify.init verify.module_heap)) 7 6 1
  = Ok 5.
Proof. repeat split. Qed.

(** C4, amended: no range check is made.  For [max = min - 1] the
    modulus is zero and the call raises [ZeroDivisionError]; for
    [max < min - 1] it returns [(randomValue mod (max - min + 1)) + min]
    under the floor modulo, a value in [[max + 2, min]]. *)
Theorem calculate_outcome_reversed_range (randomValue min max : Z) :
  max < min ->
  (max = min - 1 ->
   game.calculate_outcome randomValue min max = Raise ZeroDivisionError)
  /\
  (max < min - 1 ->
   exists outcome : Z,
     game.calculate_outcome randomValue min max = Ok outcome /\
     outcome = randomValue mod (max - min + 1) + min /\
     max + 2 <= outcome <= min)
  /\
  (forall self : verify.DrandVerifier,
     verify.calculate_outcome self randomValue min max
     = game.calculate_outcome randomValue min max).
Proof.
  intros Hlt. split; [|split].
  - intros ->. unfold game.calculate_outcome, py_mod. cbn zeta.
    replace (min - 1 - min + 1) with 0 by lia. reflexivity.
  - intros Hlt'.
    destruct (py_mod_negative randomValue (max - min + 1)) as [Heq Hb];
      [lia|].
    exists (randomValue mod (max - min + 1) + min).
    unfold game.calculate_outcome. cbn zeta. rewrite Heq.
    repeat split; lia.
  - intros self. apply verify_calculate_outcome_eq.
Qed.

Lemma calculate_outcome_reversed_range_witness :
  (1 = 6 - 1 ->
   game.calculate_outcome 7 6 1 = Raise ZeroDivisionError)
  /\
  (1 < 6 - 1 ->
   exists outcome : Z,
     game.calculate_outcome 7 6 1 = Ok outcome /\
     outcome = 7 mod (1 - 6 + 1) + 6 /\
     1 + 2 <= outcome <= 6)
  /\
  (forall self : verify.DrandVerifier,
     verify.calculate_outcome self 7 6 1 = game.calculate_outcome 7 6 1).
Proof. apply (calculate_outcome_reversed_range 7 6 1); lia. Defined.

(** ** Two player derivation *)

Lemma derive_rolls_player1 (drand_value : Z) :
  DiceGame.player1_roll (DiceGame.derive_rolls_from_drand drand_value)
  = drand_value mod 6 + 1.
Proof.
  unfold DiceGame.derive_rolls_from_drand. cbn zeta.
  repeat case_match; reflexivity.
Qed.

Lemma derive_rolls_player2 (drand_value : Z) :
  DiceGame.player2_roll (DiceGame.derive_rolls_from_drand drand_value)
  = Z.shiftr drand_value 8 mod 6 + 1.
Proof.
  unfold DiceGame.derive_rolls_from_drand. cbn zeta.
  repeat case_match; reflexivity.
Qed.

Lemma derive_rolls_winner (drand_value : Z) :
  DiceGame.winner (DiceGame.derive_rolls_from_drand drand_value)
  = if drand_value mod 6 + 1 <? Z.shiftr drand_value 8 mod 6 + 1
    then 2 else 1.
Proof.
  unfold DiceGame.derive_rolls_from_drand. cbn zeta.
  repeat case_match; cbn [DiceGame.winner]; lia.
Qed.

(** C2: for a 256-bit [randomValue], [derive_rolls_from_drand] returns
    [rollA = (randomValue mod 6) + 1] and
    [rollB = ((randomValue >> 8) mod 6) + 1], both in [[1, 6]]; the
    winner is player 1 or player 2, player 2 exactly when [rollB] is the
    strictly higher roll, hence player 1 whenever [rollA >= rollB]. *)
Theorem derive_rolls_from_drand_spec (randomValue : Z) :
  0 <= randomValue < 2 ^ 256 ->
  let r := DiceGame.derive_rolls_from_drand randomValue in
  DiceGame.player1_roll r = randomValue mod 6 + 1 /\
  DiceGame.player2_roll r = Z.shiftr randomValue 8 mod 6 + 1 /\
  1 <= DiceGame.player1_roll r <= 6 /\
  1 <= DiceGame.player2_roll r <= 6 /\
  (DiceGame.winner r = 1 \/ DiceGame.winner r = 2) /\
  (DiceGame.player1_roll r >= DiceGame.player2_roll r ->
   DiceGame.winner r = 1) /\
  (DiceGame.player2_roll r > DiceGame.player1_roll r ->
   DiceGame.winner r = 2) /\
  DiceGame.validate_rolls (DiceGame.player1_roll r) (DiceGame.player2_roll r)
  = true.
Proof.
  intros _ r. subst r.
  rewrite derive_rolls_player1, derive_rolls_player2, derive_rolls_winner.
  pose proof (Z.mod_pos_bound randomValue 6 ltac:(lia)) as H1.
  pose proof (Z.mod_pos_bound (Z.shiftr randomValue 8) 6 ltac:(lia)) as H2.
  unfold DiceGame.validate_rolls.
  destruct (Z.ltb_spec (randomValue mod 6 + 1)
              (Z.shiftr randomValue 8 mod 6 + 1));
    repeat split; try lia; auto.
Qed.

Lemma derive_rolls_from_drand_spec_witness :
  let r := DiceGame.derive_rolls_from_drand 1234567 in
  DiceGame.player1_roll r = 1234567 mod 6 + 1 /\
  DiceGame.player2_roll r = Z.shiftr 1234567 8 mod 6 + 1 /\
  1 <= DiceGame.player1_roll r <= 6 /\
  1 <= DiceGame.player2_roll r <= 6 /\
  (DiceGame.winner r = 1 \/ DiceGame.winner r = 2) /\
  (DiceGame.player1_roll r >= DiceGame.player2_roll r ->
   DiceGame.winner r = 1) /\
  (DiceGame.player2_roll r > DiceGame.player1_roll r ->
   DiceGame.winner r = 2) /\
  DiceGame.validate_rolls (DiceGame.player1_roll r) (DiceGame.player2_roll r)
  = true.
Proof. apply (derive_rolls_from_drand_spec 1234567); lia. Defined.

(** ** The stored round 17598 *)

(** C3: round 17598 is stored with the randomness
    [0x2e0a...6339]; over the range [[1, 6]] it derives the outcome 2;
    [verify_game(17598, 2, 1, 6)] returns a result with [valid] true and
    [verify_game(17598, 3, 1, 6)] one with [valid] false and the actual
    outcome 2, under every digit limit of the interpreter. *)
Theorem round_17598_example (limit : Py.int_max_str_digits) :
  let h := verify.module_heap in
  let self := fst (verify.init h) in
  let hex :=
    "0x2e0a3bbff600011a0ae21c92e8d4c99dda94da06284dfe90032bae3f7ebc6339" in
  (verify.randomness <$> verify.get_round self 17598 h = Some hex) /\
  (exists n : Z,
     verify.randomness_to_int self hex = Ok n /\
     n mod 6 + 1 = 2 /\
     verify.calculate_outcome self n 1 6 = Ok 2) /\
  (exists r,
     verify.verify_game limit self 17598 2 1 6 h = Ok r /\
     verify.valid r = true /\ verify.actual_outcome r = Some 2) /\
  (exists r,
     verify.verify_game limit self 17598 3 1 6 h = Ok r /\
     verify.valid r = false /\ verify.actual_outcome r = Some 2).
Proof.
  cbv zeta. split; [vm_compute; reflexivity|].
  split; [|split]; eexists;
    (split; [destruct limit; vm_compute; reflexivity|]);
    vm_compute; repeat split.
Qed.

(** ** Characters *)

Lemma ascii_forall (P : ascii -> bool) :
  forallb P (map ascii_of_nat (seq 0 256)) = true -> forall c, P c = true.
Proof.
  intros H c. rewrite forallb_forall in H. apply H.
  rewrite <- (ascii_nat_embedding c). apply in_map.
  apply in_seq. pose proof (nat_ascii_bounded c). lia.
Qed.

Lemma char_check_all (c : ascii) : Spec.char_check c = true.
Proof. revert c. apply ascii_forall. vm_compute. reflexivity. Qed.

Lemma hexdigit_facts (c : ascii) :
  Spec.is_hexdigit c = true ->
  exists v : Z,
    Spec.hexdigit_value c = Some v /\ Py.DigitValue c = v /\ 0 <= v < 16 /\
    Py.ISSPACE c = false /\ Ascii.eqb c "_" = false /\
    Ascii.eqb c "+" = false /\ Ascii.eqb c "-" = false /\
    Ascii.eqb c "x" = false /\ Ascii.eqb c "X" = false.
Proof.
  intros H. pose proof (char_check_all c) as Hc.
  unfold Spec.is_hexdigit in H. unfold Spec.char_check in Hc.
  destruct (Spec.hexdigit_value c) as [v|]; [|discriminate].
  exists v. repeat (apply andb_prop in Hc; destruct Hc as [Hc ?]).
  repeat match goal with
         | H : negb _ = true |- _ => apply negb_true_iff in H
         end.
  repeat split; try assumption; lia.
Qed.

Lemma digit_is_hexdigit (c : ascii) :
  Py.DigitValue c < 16 -> Spec.is_hexdigit c = true.
Proof.
  intros H. pose proof (char_check_all c) as Hc.
  unfold Spec.is_hexdigit. unfold Spec.char_check in Hc.
  destruct (Spec.hexdigit_value c); [reflexivity|lia].
Qed.

(** ** Reading hexadecimal literals *)

Lemma hex_value_bounds (d : string) :
  Spec.all_hexdigits d = true ->
  0 <= Spec.hex_value d < 16 ^ Z.of_nat (String.length d).
Proof.
  induction d as [|c r IH];
    cbn [Spec.all_hexdigits Spec.hex_value String.length].
  - intros _. cbn. lia.
  - intros H. apply andb_prop in H as [Hc Hr].
    destruct (hexdigit_facts c Hc) as (v & -> & _ & Hv & _).
    specialize (IH Hr). cbn [default].
    rewrite Nat2Z.inj_succ, Z.pow_succ_r by lia.
    set (p := 16 ^ Z.of_nat (String.length r)) in *.
    clearbody p. unfold id.
    assert (0 <= v * p <= 15 * p) by nia. lia.
Qed.

Lemma scan_digits_hex (d : string) :
  forall (prev : ascii) (digits : nat) (acc : Z),
  Spec.all_hexdigits d = true ->
  d <> EmptyString \/ Ascii.eqb prev "_" = false ->
  Py.scan_digits 16 d prev digits acc
  = Some (acc * 16 ^ Z.of_nat (String.length d) + Spec.hex_value d,
          (digits + String.length d)%nat, EmptyString).
Proof.
  induction d as [|c r IH]; intros prev digits acc Hd Hp.
  - destruct Hp as [Hp|Hp]; [congruence|].
    cbn. rewrite Hp. repeat f_equal; lia.
  - cbn [Spec.all_hexdigits] in Hd. apply andb_prop in Hd as [Hc Hr].
    destruct (hexdigit_facts c Hc) as (v & Hv & Hdv & Hb & _ & Hu & _).
    cbn [Py.scan_digits Spec.hex_value String.length].
    rewrite Hu, Hdv, Hv. cbn [default].
    destruct (Z.ltb_spec v 16) as [_|]; [|lia].
    rewrite IH by (auto). 
    rewrite Nat2Z.inj_succ, Z.pow_succ_r by lia.
    do 3 f_equal; [unfold id; ring | lia].
Qed.

Lemma int16_hexdigits (d : string) :
  d <> EmptyString -> Spec.all_hexdigits d = true ->
  Py.int16 d = Ok (Spec.hex_value d).
Proof.
  intros Hne Hd. destruct d as [|c r]; [congruence|].
  pose proof Hd as Hd'. cbn [Spec.all_hexdigits] in Hd'.
  apply andb_prop in Hd' as [Hc Hr].
  destruct (hexdigit_facts c Hc)
    as (v & Hv & Hdv & Hb & Hsp & Hu & Hplus & Hminus & Hx & HX).
  unfold Py.int16. cbn [Py.skip_spaces]. rewrite Hsp.
  cbn [Py.strip_sign]. rewrite Hplus, Hminus.
  assert (Hpre : Py.strip_prefix16 (String c r) = String c r).
  { destruct r as [|x r']; [reflexivity|]. cbn [Py.strip_prefix16].
    cbn [Spec.all_hexdigits] in Hr. apply andb_prop in Hr as [Hxd _].
    destruct (hexdigit_facts x Hxd)
      as (_ & _ & _ & _ & _ & _ & _ & _ & -> & ->).
    rewrite andb_false_r. reflexivity. }
  rewrite Hpre. cbn [Py.starts_with_underscore]. rewrite Hu.
  rewrite scan_digits_hex by (auto; left; congruence).
  cbn [String.length Nat.add Py.skip_spaces].
  f_equal. lia.
Qed.

(** ** What [int] refuses *)

Lemma append_cons (c : ascii) (s1 s2 : string) :
  String c s1 +:+ s2 = String c (s1 +:+ s2).
Proof. reflexivity. Qed.

Lemma extends_refl (s : string) : Spec.extends s s.
Proof. exists EmptyString. split; reflexivity. Qed.

Lemma extends_cons (c : ascii) (r s : string) :
  Spec.int16_alphabet c = true -> Spec.extends r s ->
  Spec.extends r (String c s).
Proof.
  intros Hc (pre & -> & Hpre). exists (String c pre). split; [reflexivity|].
  cbn [Spec.string_forall]. rewrite Hc, Hpre. reflexivity.
Qed.

Lemma string_forall_app (P : ascii -> bool) (s1 s2 : string) :
  Spec.string_forall P (s1 +:+ s2)
  = Spec.string_forall P s1 && Spec.string_forall P s2.
Proof.
  induction s1 as [|c s1 IH]; [reflexivity|].
  rewrite append_cons. cbn [Spec.string_forall].
  rewrite IH, andb_assoc. reflexivity.
Qed.

Lemma string_exists_app_r (P : ascii -> bool) (s1 s2 : string) :
  Spec.string_exists P s2 = true -> Spec.string_exists P (s1 +:+ s2) = true.
Proof.
  intros H. induction s1 as [|c s1 IH]; [exact H|].
  rewrite append_cons. cbn [Spec.string_exists].
  rewrite IH. apply orb_true_r.
Qed.

Lemma extends_trans (a b c : string) :
  Spec.extends a b -> Spec.extends b c -> Spec.extends a c.
Proof.
  intros (p1 & -> & H1) (p2 & -> & H2). exists (p2 +:+ p1). split.
  - clear. induction p2 as [|x p2 IH]; [reflexivity|].
    rewrite !append_cons. now f_equal.
  - rewrite string_forall_app, H1, H2. reflexivity.
Qed.

Lemma alphabet_space (c : ascii) :
  Py.ISSPACE c = true -> Spec.int16_alphabet c = true.
Proof.
  intros H. unfold Spec.int16_alphabet. rewrite H.
  rewrite orb_true_r. reflexivity.
Qed.

Lemma alphabet_hexdigit (c : ascii) :
  Spec.is_hexdigit c = true -> Spec.int16_alphabet c = true.
Proof. intros H. unfold Spec.int16_alphabet. rewrite H. reflexivity. Qed.

Lemma alphabet_eqb (c d : ascii) :
  Ascii.eqb c d = true -> Spec.int16_alphabet d = true ->
  Spec.int16_alphabet c = true.
Proof. intros H%Ascii.eqb_eq. now subst. Qed.

Lemma skip_spaces_extends (s : string) : Spec.extends (Py.skip_spaces s) s.
Proof.
  induction s as [|c r IH]; cbn [Py.skip_spaces]; [apply extends_refl|].
  destruct (Py.ISSPACE c) eqn:Hc; [|apply extends_refl].
  apply extends_cons; [apply alphabet_space, Hc|exact IH].
Qed.

Lemma strip_sign_extends (s : string) : Spec.extends (snd (Py.strip_sign s)) s.
Proof.
  destruct s as [|c r]; cbn [Py.strip_sign]; [apply extends_refl|].
  destruct (Ascii.eqb c "+") eqn:Hp; cbn [snd].
  { apply extends_cons; [|apply extends_refl].
    apply (alphabet_eqb _ _ Hp). reflexivity. }
  destruct (Ascii.eqb c "-") eqn:Hm; cbn [snd]; [|apply extends_refl].
  apply extends_cons; [|apply extends_refl].
  apply (alphabet_eqb _ _ Hm). reflexivity.
Qed.

Lemma strip_prefix16_extends (s : string) :
  Spec.extends (Py.strip_prefix16 s) s.
Proof.
  destruct s as [|c [|x r]]; cbn [Py.strip_prefix16]; try apply extends_refl.
  destruct (Ascii.eqb c "0" && (Ascii.eqb x "x" || Ascii.eqb x "X")) eqn:H;
    [|apply extends_refl].
  apply andb_prop in H as [Hc Hx].
  assert (Hc' : Spec.int16_alphabet c = true)
    by (apply (alphabet_eqb _ _ Hc); reflexivity).
  assert (Hx' : Spec.int16_alphabet x = true).
  { apply orb_prop in Hx as [Hx|Hx]; apply (alphabet_eqb _ _ Hx); reflexivity. }
  do 2 (apply extends_cons; [assumption|]).
  destruct r as [|u r']; [apply extends_refl|].
  destruct (Ascii.eqb u "_") eqn:Hu; [|apply extends_refl].
  apply extends_cons; [|apply extends_refl].
  apply (alphabet_eqb _ _ Hu). reflexivity.
Qed.

Lemma scan_digits_extends (s : string) :
  forall (prev : ascii) (digits : nat) (acc z : Z) (n : nat) (rest : string),
    Py.scan_digits 16 s prev digits acc = Some (z, n, rest) ->
    Spec.extends rest s /\ (digits <= n)%nat /\
    ((digits < n)%nat -> Spec.string_exists Spec.is_hexdigit s = true).
Proof.
  induction s as [|c r IH]; intros prev digits acc z n rest H;
    cbn [Py.scan_digits] in H.
  - destruct (Ascii.eqb prev "_"); [discriminate|]. injection H as <- <- <-.
    split; [apply extends_refl|]. split; lia.
  - destruct (Ascii.eqb c "_") eqn:Hu.
    + destruct (Ascii.eqb prev "_"); [discriminate|].
      apply IH in H as (He & Hle & Hex). split; [|split].
      * apply extends_cons; [|exact He].
        apply (alphabet_eqb _ _ Hu). reflexivity.
      * exact Hle.
      * intros Hlt. cbn. rewrite (Hex Hlt). apply orb_true_r.
    + destruct (Z.ltb_spec (Py.DigitValue c) 16) as [Hd|Hd].
      * apply digit_is_hexdigit in Hd.
        apply IH in H as (He & Hle & _). split; [|split].
        -- apply extends_cons; [apply alphabet_hexdigit, Hd|exact He].
        -- lia.
        -- intros _. cbn. rewrite Hd. reflexivity.
      * destruct (Ascii.eqb prev "_"); [discriminate|].
        injection H as <- <- <-.
        split; [apply extends_refl|]. split; lia.
Qed.

Lemma skip_spaces_empty (s : string) :
  Py.skip_spaces s = EmptyString ->
  Spec.string_forall Spec.int16_alphabet s = true.
Proof.
  induction s as [|c r IH]; cbn [Py.skip_spaces]; [reflexivity|].
  destruct (Py.ISSPACE c) eqn:Hc; [|discriminate].
  intros H. cbn. rewrite (alphabet_space c Hc), (IH H). reflexivity.
Qed.

Lemma extends_forall (r s : string) :
  Spec.extends r s -> Spec.string_forall Spec.int16_alphabet r = true ->
  Spec.string_forall Spec.int16_alphabet s = true.
Proof.
  intros (pre & -> & Hp) Hr. rewrite string_forall_app, Hp, Hr. reflexivity.
Qed.

Lemma extends_exists (P : ascii -> bool) (r s : string) :
  Spec.extends r s -> Spec.string_exists P r = true ->
  Spec.string_exists P s = true.
Proof. intros (pre & -> & _). apply string_exists_app_r. Qed.

Lemma int16_ok_alphabet (s : string) (v : Z) :
  Py.int16 s = Ok v ->
  Spec.string_forall Spec.int16_alphabet s = true /\
  Spec.string_exists Spec.is_hexdigit s = true.
Proof.
  unfold Py.int16. intros H.
  pose proof (skip_spaces_extends s) as E1.
  pose proof (strip_sign_extends (Py.skip_spaces s)) as E2.
  destruct (Py.strip_sign (Py.skip_spaces s)) as [sign str]. cbn [snd] in E2.
  pose proof (strip_prefix16_extends str) as E3.
  destruct (Py.starts_with_underscore (Py.strip_prefix16 str));
    [discriminate|].
  destruct (Py.scan_digits 16 (Py.strip_prefix16 str) Ascii.zero 0 0)
    as [[[z n] rest]|] eqn:Hscan; [|discriminate].
  apply scan_digits_extends in Hscan as (E4 & _ & Hex).
  destruct n as [|n]; [discriminate|].
  destruct (Py.skip_spaces rest) eqn:Hrest; [|discriminate].
  apply skip_spaces_empty in Hrest.
  pose proof (extends_trans _ _ _ E3 (extends_trans _ _ _ E2 E1)) as E.
  split.
  - apply (extends_forall _ _ E), (extends_forall _ _ E4), Hrest.
  - apply (extends_exists _ _ _ E), Hex. lia.
Qed.

Lemma int16_raises_ValueError (s : string) (e : exn) :
  Py.int16 s = Raise e -> e = ValueError.
Proof.
  unfold Py.int16.
  destruct (Py.strip_sign (Py.skip_spaces s)) as [sign str].
  repeat case_match; congruence.
Qed.

Lemma int16_refuses (s : string) :
  Spec.string_forall Spec.int16_alphabet s = false \/
  Spec.string_exists Spec.is_hexdigit s = false ->
  Py.int16 s = Raise ValueError.
Proof.
  intros H. destruct (Py.int16 s) as [v|e] eqn:Hs.
  - apply int16_ok_alphabet in Hs as [Ha Hd]. destruct H; congruence.
  - f_equal. apply (int16_raises_ValueError s e Hs).
Qed.

Lemma int16_0x_hexdigits (d : string) :
  d <> EmptyString -> Spec.all_hexdigits d = true ->
  Py.int16 (String "0" (String "x" d)) = Ok (Spec.hex_value d).
Proof.
  intros Hne Hd. destruct d as [|c r]; [congruence|].
  pose proof Hd as Hd'. cbn [Spec.all_hexdigits] in Hd'.
  apply andb_prop in Hd' as [Hc Hr].
  destruct (hexdigit_facts c Hc) as (v & Hv & Hdv & Hb & Hsp & Hu & _).
  unfold Py.int16.
  change (Py.skip_spaces (String "0" (String "x" (String c r))))
    with (String "0" (String "x" (String c r))).
  change (Py.strip_sign (String "0" (String "x" (String c r))))
    with (1, String "0" (String "x" (String c r))).
  cbv beta iota.
  change (Py.strip_prefix16 (String "0" (String "x" (String c r))))
    with (if Ascii.eqb c "_" then r else String c r).
  rewrite Hu. cbn [Py.starts_with_underscore]. rewrite Hu.
  rewrite scan_digits_hex by (auto; left; congruence).
  cbn [String.length Nat.add Py.skip_spaces].
  f_equal. lia.
Qed.

(** C5, as the specification states it, fails: ["-1"] is not a valid hex
    string, and both [randomness_to_int] return [-1] for it. *)
Lemma randomness_to_int_reads_signed :
  Spec.valid_hex "-1" = false /\
  verify.randomness_to_int (fst (verify.init verify.module_heap)) "-1"
  = Ok (-1) /\
  randomness.randomness_to_int "-1" = Ok (-1).
Proof. repeat split. Qed.

Lemma string_forall_exists_negb (P : ascii -> bool) (s : string) :
  Spec.string_exists (fun c => negb (P c)) s = true ->
  Spec.string_forall P s = false.
Proof.
  induction s as [|c r IH]; cbn [Spec.string_exists Spec.string_forall];
    [discriminate|].
  destruct (P c); cbn [negb orb andb]; [exact IH|reflexivity].
Qed.

Lemma unreadable16_cases (s : string) :
  Spec.unreadable16 s = true ->
  Spec.string_forall Spec.int16_alphabet s = false \/
  Spec.string_exists Spec.is_hexdigit s = false.
Proof.
  unfold Spec.unreadable16. intros H. apply orb_prop in H as [H|H].
  - left. apply string_forall_exists_negb.
    induction s as [|c r IH]; cbn [Spec.string_exists] in *; [discriminate|].
    apply orb_prop in H as [H|H].
    + apply andb_prop in H as [_ ->]. reflexivity.
    + rewrite (IH H). apply orb_true_r.
  - right. apply andb_prop in H as [_ H]. apply negb_true_iff, H.
Qed.

(** C5, amended: [randomness_to_int] is a function of its argument alone;
    on every valid hex string, with or without the [0x] prefix, it
    returns the unsigned value of the hexadecimal digits, which is below
    sixteen to the number of digits; it raises [ValueError] on every
    string with an ASCII character that is neither a hexadecimal digit
    nor a blank, [x], [X], [_], [+] or [-], and on every ASCII string
    without a hexadecimal digit.  Being valid hex is sufficient for
    success and not necessary. *)
Theorem randomness_to_int_spec (s : string) :
  (Spec.valid_hex s = true ->
   let d := Spec.hex_digits s in
   0 <= Spec.hex_value d < 16 ^ Z.of_nat (String.length d) /\
   randomness.randomness_to_int s = Ok (Spec.hex_value d) /\
   forall self : verify.DrandVerifier,
     verify.randomness_to_int self s = Ok (Spec.hex_value d))
  /\
  (Spec.unreadable16 s = true ->
   randomness.randomness_to_int s = Raise ValueError /\
   forall self : verify.DrandVerifier,
     verify.randomness_to_int self s = Raise ValueError).
Proof.
  split.
  - unfold Spec.valid_hex, randomness.randomness_to_int,
      verify.randomness_to_int.
    destruct s as [|c [|x r]].
    + discriminate.
    + cbn [Spec.hex_digits Py.startswith Py.slice_from]. intros Hv.
      rewrite andb_false_r.
      split; [apply hex_value_bounds, Hv|].
      split; [|intros _]; apply int16_hexdigits; congruence.
    + cbn [Spec.hex_digits Py.startswith Py.slice_from].
      rewrite andb_true_r.
      rewrite (Ascii.eqb_sym "0" c), (Ascii.eqb_sym "x" x).
      destruct (Ascii.eqb_spec c "0") as [->|Hc];
        [destruct (Ascii.eqb_spec x "x") as [->|Hx]|]; cbn [andb].
      * destruct r as [|u r'] eqn:Hr; [discriminate|]. rewrite <- Hr.
        intros Hv. assert (r <> EmptyString) by congruence.
        split; [apply hex_value_bounds, Hv|].
        split; [|intros _];
          [apply int16_hexdigits|apply int16_0x_hexdigits]; assumption.
      * intros Hv. split; [apply hex_value_bounds, Hv|].
        split; [|intros _]; apply int16_hexdigits; congruence.
      * intros Hv. split; [apply hex_value_bounds, Hv|].
        split; [|intros _]; apply int16_hexdigits; congruence.
  - intros H%unreadable16_cases.
    split; [|intros self; apply int16_refuses, H].
    unfold randomness.randomness_to_int.
    destruct (Py.startswith s "0x") eqn:Hs; [|apply int16_refuses, H].
    destruct s as [|c [|x r]]; cbn [Py.startswith] in Hs;
      try (rewrite ?andb_false_r in Hs; discriminate).
    apply andb_prop in Hs as [Hc Hx]. rewrite andb_true_r in Hx.
    apply Ascii.eqb_eq in Hc, Hx. subst c x.
    cbn [Py.slice_from]. apply int16_refuses.
    cbn [Spec.string_forall Spec.string_exists] in H.
    change (Spec.int16_alphabet "0") with true in H.
    change (Spec.int16_alphabet "x") with true in H.
    change (Spec.is_hexdigit "x") with false in H.
    cbn [andb orb] in H.
    destruct H as [H|H]; [left; exact H|right].
    apply orb_false_iff in H as [_ H]. exact H.
Qed.

Lemma randomness_to_int_spec_witness :
  (randomness.randomness_to_int "0xff" = Ok 255 /\
   verify.randomness_to_int (fst (verify.init verify.module_heap)) "0xff"
   = Ok 255) /\
  (randomness.randomness_to_int "0xzz" = Raise ValueError /\
   verify.randomness_to_int (fst (verify.init verify.module_heap)) "0xzz"
   = Raise ValueError).
Proof.
  split.
  - destruct (proj1 (randomness_to_int_spec "0xff") eq_refl) as (_ & H1 & H2).
    split; [exact H1|apply H2].
  - destruct (proj2 (randomness_to_int_spec "0xzz") eq_refl) as (H1 & H2).
    split; [exact H1|apply H2].
Defined.

(** ** The seed store *)

Lemma hex_byte_facts (b : byte) :
  let hi := Py.hexdigit (Byte.to_N b / 16) in
  let lo := Py.hexdigit (Byte.to_N b mod 16) in
  Py.ISSPACE hi = false /\
  (16 <=? Py.DigitValue hi) = false /\
  (16 <=? Py.DigitValue lo) = false /\
  Py.uchar (Z.shiftl (Py.DigitValue hi) 4 + Py.DigitValue lo) = b.
Proof. destruct b; vm_compute; repeat split. Qed.

(** [bytes.fromhex(bs.hex())] is [bs]. *)
Lemma fromhex_hex (bs : list byte) : Py.fromhex (Py.hex bs) = Ok bs.
Proof.
  induction bs as [|b r IH]; [reflexivity|].
  destruct (hex_byte_facts b) as (Hsp & Hhi & Hlo & Hb).
  cbn [Py.hex Py.fromhex]. rewrite Hsp, Hhi, Hlo, IH.
  cbn [mbind result_bind]. rewrite Hb. reflexivity.
Qed.

Lemma create_seed_fresh (sha : list byte -> string) (raw : list byte)
    (seat : string) (st : gmap string (list byte * string)) :
  st !! seat = None ->
  seed.create_seed sha raw seat st
  = (Ok (sha raw), <[seat := (raw, sha raw)]> st).
Proof. intros H. unfold seed.create_seed. rewrite H. reflexivity. Qed.

(** C6: on a store with no commitment for the slot, [create_seed]
    succeeds, [reveal_seed] then returns the hex of the seed, and
    [verify_commitment] on that hex returns [True]. *)
Theorem commit_reveal_round_trip (sha : list byte -> string)
    (raw : list byte) (s : string) (st : gmap string (list byte * string)) :
  st !! s = None ->
  exists (commitment revealed : string) (st' : gmap string (list byte * string)),
    seed.create_seed sha raw s st = (Ok commitment, st') /\
    seed.reveal_seed s st' = Ok revealed /\
    seed.verify_commitment sha s revealed st' = Ok true.
Proof.
  intros Hnone.
  exists (sha raw), (Py.hex raw), (<[s := (raw, sha raw)]> st).
  split; [apply create_seed_fresh, Hnone|].
  unfold seed.reveal_seed, seed.verify_commitment.
  rewrite lookup_insert_eq. split; [reflexivity|].
  rewrite fromhex_hex. cbn [mbind result_bind].
  rewrite String.eqb_refl. reflexivity.
Qed.

Lemma commit_reveal_round_trip_witness :
  exists (commitment revealed : string) (st' : gmap string (list byte * string)),
    seed.create_seed Py.hex [x01; xab] "PlayerA" seed.init
    = (Ok commitment, st') /\
    seed.reveal_seed "PlayerA" st' = Ok revealed /\
    seed.verify_commitment Py.hex "PlayerA" revealed st' = Ok true.
Proof.
  apply (commit_reveal_round_trip Py.hex [x01; xab] "PlayerA" seed.init).
  reflexivity.
Defined.

(** [verify_commitment] answers [False] for an unknown seat, whatever
    the string. *)
Lemma verify_commitment_unknown (sha : list byte -> string)
    (seat seed_hex : string) (st : gmap string (list byte * string)) :
  st !! seat = None -> seed.verify_commitment sha seat seed_hex st = Ok false.
Proof. intros H. unfold seed.verify_commitment. rewrite H. reflexivity. Qed.

(** It answers [False] for a string [fromhex] reads whose hash is not
    the commitment. *)
Lemma verify_commitment_mismatch (sha : list byte -> string)
    (seat seed_hex commitment : string) (raw seed_bytes : list byte)
    (st : gmap string (list byte * string)) :
  st !! seat = Some (raw, commitment) ->
  Py.fromhex seed_hex = Ok seed_bytes ->
  sha seed_bytes <> commitment ->
  seed.verify_commitment sha seat seed_hex st = Ok false.
Proof.
  intros Hs Hh Hne. unfold seed.verify_commitment. rewrite Hs, Hh.
  cbn [mbind result_bind]. apply String.eqb_neq in Hne. rewrite Hne.
  reflexivity.
Qed.

(** C7: [verify_commitment] is not total.  Once seat ["A"] has a
    commitment, the call with the string ["zz"] raises [ValueError]:
    [bytes.fromhex] refuses the string before any hash is compared. *)
Theorem verify_commitment_raises_on_malformed_hex
    (sha : list byte -> string) (raw : list byte) :
  seed.verify_commitment sha "A" "zz"
    (snd (seed.create_seed sha raw "A" seed.init))
  = Raise ValueError.
Proof.
  rewrite create_seed_fresh by apply lookup_empty. cbn [snd].
  unfold seed.verify_commitment. rewrite lookup_insert_eq. reflexivity.
Qed.

(** C8: [create_seed] for a slot that already has a commitment raises
    [ValueError] and returns the store as it was: no entry is
    overwritten or added. *)
Theorem create_seed_duplicate (sha : list byte -> string)
    (raw : list byte) (s : string) (st : gmap string (list byte * string)) :
  is_Some (st !! s) ->
  seed.create_seed sha raw s st = (Raise ValueError, st).
Proof.
  intros [entry Hs]. unfold seed.create_seed. rewrite Hs. reflexivity.
Qed.

Lemma create_seed_duplicate_witness :
  let st := snd (seed.create_seed Py.hex [x01] "A" seed.init) in
  (is_Some (st !! "A") /\
   seed.create_seed Py.hex [x02] "A" st = (Raise ValueError, st))%type.
Proof.
  assert (H : is_Some (snd (seed.create_seed Py.hex [x01] "A" seed.init)
                       !! "A")).
  { vm_compute. eexists. reflexivity. }
  split; [exact H|].
  apply (create_seed_duplicate Py.hex [x02] "A"
           (snd (seed.create_seed Py.hex [x01] "A" seed.init)) H).
Defined.

(** The second of two [create_seed] calls for one slot always fails and
    keeps the store the first call left. *)
Lemma create_seed_twice (sha : list byte -> string) (raw raw' : list byte)
    (s : string) (st : gmap string (list byte * string)) :
  let st1 := snd (seed.create_seed sha raw s st) in
  seed.create_seed sha raw' s st1 = (Raise ValueError, st1).
Proof.
  cbv zeta. unfold seed.create_seed at 2 3.
  destruct (st !! s) as [entry|] eqn:Hs; cbn [snd].
  - unfold seed.create_seed. rewrite Hs. reflexivity.
  - unfold seed.create_seed. rewrite lookup_insert_eq. reflexivity.
Qed.

(** ** The matchmaking queue *)

Section MatchmakingQueue.

Context {float datetime : Type}.

Implicit Types (p : matching.PendingPlayer float datetime)
  (queue pre rest : list (matching.PendingPlayer float datetime)).

Lemma pop_middle pre p rest :
  matching.pop (length pre) (pre ++ p :: rest) = Ok (p, pre ++ rest).
Proof.
  unfold matching.pop. rewrite list_lookup_middle by reflexivity.
  f_equal. f_equal.
  induction pre as [|x pre IH]; [reflexivity|].
  cbn. f_equal. exact IH.
Qed.

Lemma find_match_loop_none (g : string) (i : nat) rest queue :
  Forall (fun x => matching.game_type x <> g) rest ->
  matching.find_match_loop g i rest queue = Ok (None, queue).
Proof.
  intros H. revert i. induction H as [|x rest Hx _ IH]; intros i.
  - reflexivity.
  - cbn [matching.find_match_loop].
    apply String.eqb_neq in Hx. rewrite Hx. apply IH.
Qed.

Lemma find_match_loop_found (g : string) l1 : forall pre p l2,
  Forall (fun x => matching.game_type x <> g) l1 ->
  matching.game_type p = g ->
  matching.find_match_loop g (length pre) (l1 ++ p :: l2)
    (pre ++ l1 ++ p :: l2)
  = Ok (Some p, pre ++ l1 ++ l2).
Proof.
  induction l1 as [|x l1 IH]; intros pre p l2 Hl Hp.
  - cbn [app matching.find_match_loop].
    apply String.eqb_eq in Hp. rewrite Hp.
    rewrite pop_middle. reflexivity.
  - apply Forall_cons in Hl as [Hx Hl].
    cbn [app matching.find_match_loop].
    apply String.eqb_neq in Hx. rewrite Hx.
    specialize (IH (pre ++ [x]) p l2 Hl Hp).
    rewrite length_app, Nat.add_1_r, <- !app_assoc in IH. exact IH.
Qed.

Lemma enqueue_all_app (reqs : list (Spec.enqueue_request float datetime))
    queue :
  Spec.enqueue_all reqs queue = queue ++ map Spec.pending_of reqs.
Proof.
  revert queue. induction reqs as [|r reqs IH]; intros queue.
  - cbn. rewrite app_nil_r. reflexivity.
  - cbn [Spec.enqueue_all foldl map].
    change (foldl _ ?q reqs) with (Spec.enqueue_all reqs q).
    rewrite IH. unfold matching.add_player, Spec.pending_of.
    rewrite <- app_assoc. reflexivity.
Qed.

Lemma first_of_class (g : string) queue :
  (exists l1 p l2,
     queue = l1 ++ p :: l2 /\
     Forall (fun x => matching.game_type x <> g) l1 /\
     matching.game_type p = g) \/
  Forall (fun x => matching.game_type x <> g) queue.
Proof.
  induction queue as [|x queue IH]; [right; constructor|].
  destruct (String.eqb_spec (matching.game_type x) g) as [Hx|Hx].
  - left. exists [], x, queue. repeat split; [constructor|exact Hx].
  - destruct IH as [(l1 & p & l2 & -> & Hl & Hp)|IH].
    + left. exists (x :: l1), p, l2. repeat split; [|exact Hp].
      constructor; assumption.
    + right. constructor; assumption.
Qed.

Lemma find_match_found (g : string) l1 p l2 :
  Forall (fun x => matching.game_type x <> g) l1 ->
  matching.game_type p = g ->
  matching.find_match g (l1 ++ p :: l2) = Ok (Some p, l1 ++ l2).
Proof.
  intros Hl Hp. apply (find_match_loop_found g l1 [] p l2 Hl Hp).
Qed.

(** C9: for every queue and every game class, [find_match] does not
    raise; it removes and returns the first entry of the class in the
    queue, no entry before it being of the class and the other entries
    keeping their order, or it returns [None] and leaves the queue as it
    is when no entry is of the class.  [add_player] puts every new entry
    behind those already queued, so the first entry in the queue is the
    earliest enqueued. *)
Theorem find_match_fifo (g : string) queue :
  match matching.find_match g queue with
  | Ok (Some p, queue') =>
      exists l1 l2,
        queue = l1 ++ p :: l2 /\
        Forall (fun x => matching.game_type x <> g) l1 /\
        matching.game_type p = g /\
        queue' = l1 ++ l2
  | Ok (None, queue') =>
      Forall (fun x => matching.game_type x <> g) queue /\ queue' = queue
  | Raise _ => False
  end /\
  forall reqs : list (Spec.enqueue_request float datetime),
    Spec.enqueue_all reqs queue = queue ++ map Spec.pending_of reqs.
Proof.
  split; [|intros reqs; apply enqueue_all_app].
  destruct (first_of_class g queue) as [(l1 & p & l2 & -> & Hl & Hp)|Hn].
  - rewrite (find_match_found g l1 p l2 Hl Hp).
    exists l1, l2. repeat split; assumption.
  - unfold matching.find_match. rewrite (find_match_loop_none g 0 _ _ Hn).
    split; [exact Hn|reflexivity].
Qed.

End MatchmakingQueue.

(** Three players arrive; the earlier of the two dice players is matched. *)
Example find_match_dice :
  let reqs :=
    [ {| Spec.req_now := 10; Spec.req_address := "0xA"; Spec.req_bet_id := 1;
         Spec.req_amount := 5; Spec.req_game_type := "coin" |};
      {| Spec.req_now := 11; Spec.req_address := "0xB"; Spec.req_bet_id := 2;
         Spec.req_amount := 5; Spec.req_game_type := "dice" |};
      {| Spec.req_now := 12; Spec.req_address := "0xC"; Spec.req_bet_id := 3;
         Spec.req_amount := 7; Spec.req_game_type := "dice" |} ] in
  matching.find_match "dice" (Spec.enqueue_all reqs matching.init)
  = Ok (Some {| matching.player_address := "0xB"; matching.bet_id := 2;
                matching.amount := 5; matching.game_type := "dice";
                matching.joined_at := 11 |},
        Spec.enqueue_all
          [ {| Spec.req_now := 10; Spec.req_address := "0xA";
               Spec.req_bet_id := 1; Spec.req_amount := 5;
               Spec.req_game_type := "coin" |};
            {| Spec.req_now := 12; Spec.req_address := "0xC";
               Spec.req_bet_id := 3; Spec.req_amount := 7;
               Spec.req_game_type := "dice" |} ]
          matching.init).
Proof. reflexivity. Qed.

(** ** The shared round store *)

Lemma init_known_rounds (h : gmap positive (gmap Z verify.round_data)) :
  verify.known_rounds (fst (verify.init h)) = verify.KNOWN_DRAND_ROUNDS.
Proof. reflexivity. Qed.

Lemma module_heap_stored : Spec.known_rounds_stored verify.module_heap.
Proof.
  exists verify.known_rounds_literal. split.
  - unfold verify.module_heap. apply lookup_singleton_eq.
  - intros n Hn. unfold verify.known_rounds_literal.
    repeat (apply elem_of_cons in Hn as [->|Hn]);
      [| | |apply elem_of_nil in Hn; contradiction].
    + rewrite lookup_insert_eq. eauto.
    + rewrite lookup_insert_ne, lookup_insert_eq by lia. eauto.
    + rewrite !lookup_insert_ne, lookup_insert_eq by lia. eauto.
Qed.

Lemma add_round_lookup (now : Z) (self : verify.DrandVerifier)
    (round_num : Z) (randomness : string) (timestamp : option Z)
    (h : gmap positive (gmap Z verify.round_data))
    (d : gmap Z verify.round_data) :
  h !! verify.known_rounds self = Some d ->
  verify.add_round now self round_num randomness timestamp h
    !! verify.known_rounds self
  = Some (<[round_num :=
             {| verify.round := round_num;
                verify.randomness := randomness;
                verify.signature := None;
                verify.timestamp := default now timestamp;
                verify.verified := true;
                verify.source := None |}]> d).
Proof.
  intros Hd. unfold verify.add_round. rewrite lookup_alter_eq, Hd.
  destruct timestamp; reflexivity.
Qed.

Lemma reachable_stored (h : gmap positive (gmap Z verify.round_data)) :
  Spec.reachable h -> Spec.known_rounds_stored h.
Proof.
  induction 1 as [|h _ IH|now n r ts h0 h _ _ _ IH].
  - apply module_heap_stored.
  - exact IH.
  - destruct IH as (d & Hd & Hin).
    eexists. split.
    + apply add_round_lookup. rewrite init_known_rounds. exact Hd.
    + intros m Hm. destruct (decide (n = m)) as [->|Hne].
      * rewrite lookup_insert_eq. eauto.
      * rewrite lookup_insert_ne by exact Hne. apply Hin, Hm.
Qed.

(** C10: constructing a [DrandVerifier] allocates nothing and binds
    [known_rounds] to the module level dictionary; in every heap reached
    from the load of the module that dictionary holds rounds 17598,
    13629 and 13630, so every verifier finds them from its construction
    on; and a round added through one verifier is what [get_round]
    returns through any other. *)
Theorem verifiers_share_known_rounds
    (h : gmap positive (gmap Z verify.round_data)) :
  Spec.reachable h ->
  (forall h0 : gmap positive (gmap Z verify.round_data),
     verify.init h0
     = ({| verify.known_rounds := verify.KNOWN_DRAND_ROUNDS |}, h0)) /\
  (forall n : Z,
     n ∈ [17598; 13629; 13630] ->
     is_Some (verify.get_round (fst (verify.init h)) n (snd (verify.init h))))
  /\
  (forall (h1 h2 : gmap positive (gmap Z verify.round_data))
          (now n : Z) (randomness : string) (timestamp : option Z),
     let one := fst (verify.init h1) in
     let other := fst (verify.init h2) in
     verify.get_round other n
       (verify.add_round now one n randomness timestamp h)
     = Some {| verify.round := n;
               verify.randomness := randomness;
               verify.signature := None;
               verify.timestamp := default now timestamp;
               verify.verified := true;
               verify.source := None |}).
Proof.
  intros Hr. destruct (reachable_stored h Hr) as (d & Hd & Hin).
  split; [reflexivity|]. split.
  - intros n Hn. unfold verify.get_round. cbn [fst snd verify.init].
    cbn [verify.known_rounds]. rewrite Hd. cbn. apply Hin, Hn.
  - intros h1 h2 now n randomness timestamp one other.
    unfold verify.get_round. subst one other.
    rewrite (init_known_rounds h2), <- (init_known_rounds h1).
    rewrite (add_round_lookup _ _ _ _ _ _ d)
      by (rewrite init_known_rounds; exact Hd).
    cbn. apply lookup_insert_eq.
Qed.

Lemma verifiers_share_known_rounds_witness :
  (forall h0 : gmap positive (gmap Z verify.round_data),
     verify.init h0
     = ({| verify.known_rounds := verify.KNOWN_DRAND_ROUNDS |}, h0)) /\
  (forall n : Z,
     n ∈ [17598; 13629; 13630] ->
     is_Some (verify.get_round (fst (verify.init verify.module_heap)) n
                (snd (verify.init verify.module_heap))))
  /\
  (forall (h1 h2 : gmap positive (gmap Z verify.round_data))
          (now n : Z) (randomness : string) (timestamp : option Z),
     let one := fst (verify.init h1) in
     let other := fst (verify.init h2) in
     verify.get_round other n
       (verify.add_round now one n randomness timestamp verify.module_heap)
     = Some {| verify.round := n;
               verify.randomness := randomness;
               verify.signature := None;
               verify.timestamp := default now timestamp;
               verify.verified := true;
               verify.source := None |}).
Proof.
  apply (verifiers_share_known_rounds verify.module_heap).
  apply Spec.reachable_load.
Defined.

(** * Further properties *)

(** ** Outcome derivation over a whole period *)

(** X1: for [min <= max], [verify_outcome] never raises; it accepts the
    outcome [calculate_outcome] derives, which lies in [[min, max]], and
    refuses every other claimed outcome. *)
Theorem verify_outcome_accepts_only_outcome (drand_value min max : Z) :
  min <= max ->
  exists outcome : Z,
    game.calculate_outcome drand_value min max = Ok outcome /\
    min <= outcome <= max /\
    game.verify_outcome drand_value outcome min max = Ok true /\
    forall claimed : Z,
      claimed <> outcome ->
      game.verify_outcome drand_value claimed min max = Ok false.
Proof.
  intros Hle.
  destruct (py_mod_positive drand_value (max - min + 1)) as [Heq Hb]; [lia|].
  exists (drand_value mod (max - min + 1) + min).
  assert (Hc : game.calculate_outcome drand_value min max
               = Ok (drand_value mod (max - min + 1) + min)).
  { unfold game.calculate_outcome. cbn zeta. rewrite Heq. reflexivity. }
  split; [exact Hc|]. split; [lia|].
  unfold game.verify_outcome. rewrite Hc. cbn [mbind result_bind].
  split.
  - rewrite Z.eqb_refl. reflexivity.
  - intros claimed Hne. f_equal. apply Z.eqb_neq. congruence.
Qed.

Lemma verify_outcome_accepts_only_outcome_witness :
  exists outcome : Z,
    game.calculate_outcome 555555555 0 1 = Ok outcome /\
    0 <= outcome <= 1 /\
    game.verify_outcome 555555555 outcome 0 1 = Ok true /\
    forall claimed : Z,
      claimed <> outcome ->
      game.verify_outcome 555555555 claimed 0 1 = Ok false.
Proof. apply (verify_outcome_accepts_only_outcome 555555555 0 1). lia. Defined.

(** X2: [calculate_outcome] depends on [drand_value] only modulo the
    size of the range, whatever the range; for [min <= max] it maps the
    values [0 .. max - min] one to one onto [[min, max]], so every
    outcome has exactly one source in each period. *)
Theorem calculate_outcome_uniform (min max : Z) :
  (forall drand_value k : Z,
     game.calculate_outcome (drand_value + k * (max - min + 1)) min max
     = game.calculate_outcome drand_value min max) /\
  (min <= max ->
   forall outcome : Z,
     min <= outcome <= max ->
     game.calculate_outcome (outcome - min) min max = Ok outcome /\
     forall drand_value : Z,
       0 <= drand_value <= max - min ->
       game.calculate_outcome drand_value min max = Ok outcome ->
       drand_value = outcome - min).
Proof.
  split.
  - intros v k. unfold game.calculate_outcome, py_mod. cbn zeta.
    destruct (Z.eqb_spec (max - min + 1) 0) as [H0|H0]; [reflexivity|].
    rewrite Z_mod_plus_full. reflexivity.
  - intros Hle outcome Ho.
    assert (Hsmall : forall v, 0 <= v <= max - min ->
              game.calculate_outcome v min max = Ok (v + min)).
    { intros v Hv. unfold game.calculate_outcome. cbn zeta.
      destruct (py_mod_positive v (max - min + 1)) as [-> _]; [lia|].
      cbn [mbind result_bind]. rewrite Z.mod_small by lia. reflexivity. }
    split.
    + rewrite Hsmall by lia. f_equal. lia.
    + intros v Hv Hc. rewrite Hsmall in Hc by lia.
      injection Hc as Hc. lia.
Qed.

Lemma calculate_outcome_uniform_witness :
  game.calculate_outcome (4 - 1) 1 6 = Ok 4 /\
  forall drand_value : Z,
    0 <= drand_value <= 6 - 1 ->
    game.calculate_outcome drand_value 1 6 = Ok 4 ->
    drand_value = 4 - 1.
Proof. apply (proj2 (calculate_outcome_uniform 1 6)); lia. Defined.

(** ** The two player derivation over a whole period *)

(** X3: [derive_rolls_from_drand] depends on [drand_value] only modulo
    1536, for every integer; of the 1536 values of a period, player 1
    wins 897, 258 of them as ties, and player 2 wins 639. *)
Theorem derive_rolls_period (drand_value : Z) :
  DiceGame.derive_rolls_from_drand (drand_value + 1536)
  = DiceGame.derive_rolls_from_drand drand_value /\
  DiceGame.derive_rolls_from_drand drand_value
  = DiceGame.derive_rolls_from_drand (drand_value mod 1536) /\
  let wins (player : Z) :=
    length (filter (fun v =>
                      DiceGame.winner (DiceGame.derive_rolls_from_drand v)
                      = player)
              (seqZ 0 1536)) in
  let ties :=
    length (filter (fun v =>
                      DiceGame.player1_roll (DiceGame.derive_rolls_from_drand v)
                      = DiceGame.player2_roll
                          (DiceGame.derive_rolls_from_drand v))
              (seqZ 0 1536)) in
  wins 1 = 897%nat /\ wins 2 = 639%nat /\ ties = 258%nat.
Proof.
  assert (Hk : forall v k,
             DiceGame.derive_rolls_from_drand (v + k * 1536)
             = DiceGame.derive_rolls_from_drand v).
  { intros v k. unfold DiceGame.derive_rolls_from_drand. cbn zeta.
    assert (H1 : (v + k * 1536) mod 6 = v mod 6).
    { replace (v + k * 1536) with (v + (k * 256) * 6) by lia.
      apply Z_mod_plus_full. }
    assert (H2 : Z.shiftr (v + k * 1536) 8 mod 6 = Z.shiftr v 8 mod 6).
    { rewrite !Z.shiftr_div_pow2 by lia.
      replace (v + k * 1536) with (v + (k * 6) * 2 ^ 8) by lia.
      rewrite Z_div_plus_full by lia. apply Z_mod_plus_full. }
    rewrite H1, H2. reflexivity. }
  split; [apply (Hk drand_value 1)|]. split.
  - rewrite (Z.div_mod drand_value 1536) at 1 by lia.
    rewrite Z.add_comm, Z.mul_comm. apply Hk.
  - vm_compute. repeat split.
Qed.

(** ** The verifier over every stored round *)

Lemma calculate_outcome_in_bounds (drand_value min max : Z) :
  min <= max ->
  exists outcome : Z,
    game.calculate_outcome drand_value min max = Ok outcome /\
    min <= outcome <= max.
Proof.
  intros Hle.
  destruct (py_mod_positive drand_value (max - min + 1)) as [Heq Hb]; [lia|].
  exists (drand_value mod (max - min + 1) + min).
  unfold game.calculate_outcome. cbn zeta. rewrite Heq.
  split; [reflexivity|lia].
Qed.

Lemma str_int_cases (limit : Py.int_max_str_digits) (n : Z) :
  Py.str_int limit n
  = if Py.fits limit n then Ok (str_of_int n) else Raise ValueError.
Proof.
  unfold Py.str_int, Py.fits.
  destruct (Py.exceeds limit (Py.decimal_digits n)); reflexivity.
Qed.

(** [verify_game] on an unknown round: the message shows the round
    number. *)
Lemma verify_game_unknown (limit : Py.int_max_str_digits)
    (self : verify.DrandVerifier)
    (h : gmap positive (gmap Z verify.round_data))
    (round_num claimed min max : Z) :
  verify.get_round self round_num h = None ->
  verify.verify_game limit self round_num claimed min max h
  = if Py.fits limit round_num
    then Ok (verify.NotFound false
               ("Round " +:+ str_of_int round_num
                +:+ " not found in local database") claimed)
    else Raise ValueError.
Proof.
  intros H. unfold verify.verify_game. rewrite H, str_int_cases.
  destruct (Py.fits limit round_num); reflexivity.
Qed.

(** [verify_game] on a stored round: reading, deriving, then the
    explanation, which shows four numbers. *)
Lemma verify_game_known (limit : Py.int_max_str_digits)
    (self : verify.DrandVerifier)
    (h : gmap positive (gmap Z verify.round_data))
    (round_num claimed min max : Z) (rd : verify.round_data) :
  verify.get_round self round_num h = Some rd ->
  verify.verify_game limit self round_num claimed min max h
  = (drand_int ← Py.int16 (verify.randomness rd);
     outcome ← game.calculate_outcome drand_int min max;
     if Spec.explanation_fits limit drand_int min max outcome
     then Ok (verify.Verified (outcome =? claimed) round_num
                (verify.randomness rd) claimed outcome (verify.timestamp rd)
                ("(" +:+ str_of_int drand_int +:+ " % "
                 +:+ str_of_int (max - min + 1) +:+ ") + "
                 +:+ str_of_int min +:+ " = " +:+ str_of_int outcome))
     else Raise ValueError).
Proof.
  intros H. unfold verify.verify_game. rewrite H.
  unfold verify.randomness_to_int.
  destruct (Py.int16 (verify.randomness rd)) as [drand_int|e];
    [|reflexivity].
  cbn [mbind result_bind].
  change (verify.calculate_outcome self drand_int min max)
    with (game.calculate_outcome drand_int min max).
  destruct (game.calculate_outcome drand_int min max) as [outcome|e];
    [|reflexivity].
  cbn [mbind result_bind]. unfold Spec.explanation_fits.
  rewrite !str_int_cases.
  destruct (Py.fits limit drand_int), (Py.fits limit (max - min + 1)),
    (Py.fits limit min), (Py.fits limit outcome); reflexivity.
Qed.

(** X4: for a stored round whose randomness [int] reads, and
    [min <= max], the outcome derived from the stored randomness lies in
    [[min, max]]; whatever is claimed, [verify_game] reports this outcome
    and [valid] is true exactly when the claim is that outcome, as long
    as the four numbers its explanation shows have no more digits than
    the interpreter's limit; when one of them has more, it raises
    [ValueError]. *)
Theorem verify_game_accepts_only_outcome (limit : Py.int_max_str_digits)
    (self : verify.DrandVerifier)
    (h : gmap positive (gmap Z verify.round_data))
    (round_num min max drand_int : Z) (rd : verify.round_data) :
  verify.get_round self round_num h = Some rd ->
  verify.randomness_to_int self (verify.randomness rd) = Ok drand_int ->
  min <= max ->
  exists outcome : Z,
    verify.calculate_outcome self drand_int min max = Ok outcome /\
    min <= outcome <= max /\
    forall claimed : Z,
      if Spec.explanation_fits limit drand_int min max outcome
      then
        exists res : verify.verify_result,
          verify.verify_game limit self round_num claimed min max h = Ok res /\
          verify.actual_outcome res = Some outcome /\
          (verify.valid res = true <-> claimed = outcome)
      else
        verify.verify_game limit self round_num claimed min max h
        = Raise ValueError.
Proof.
  intros Hrd Hint Hle. unfold verify.randomness_to_int in Hint.
  destruct (calculate_outcome_in_bounds drand_int min max Hle)
    as (outcome & Hc & Hb).
  exists outcome. split; [exact Hc|]. split; [exact Hb|].
  intros claimed. rewrite (verify_game_known _ _ _ _ _ _ _ rd Hrd), Hint.
  cbn [mbind result_bind]. rewrite Hc. cbn [mbind result_bind].
  destruct (Spec.explanation_fits limit drand_int min max outcome);
    [|reflexivity].
  eexists. split; [reflexivity|]. split; [reflexivity|].
  cbn [verify.valid]. rewrite Z.eqb_eq. split; congruence.
Qed.

Lemma verify_game_accepts_only_outcome_witness :
  exists outcome : Z,
    verify.calculate_outcome (fst (verify.init verify.module_heap))
      0x2f4e8c1b9a3d7f5e2c6a9b1d4e7f0a3b8c1d4e7f0a3b8c1d4e7f0a3b8c1d 2 12
    = Ok outcome /\
    2 <= outcome <= 12 /\
    forall claimed : Z,
      exists res : verify.verify_result,
        verify.verify_game (Py.at_least_640 3660)
          (fst (verify.init verify.module_heap)) 13630
          claimed 2 12 verify.module_heap = Ok res /\
        verify.actual_outcome res = Some outcome /\
        (verify.valid res = true <-> claimed = outcome).
Proof.
  destruct (verify_game_accepts_only_outcome (Py.at_least_640 3660)
              (fst (verify.init verify.module_heap)) verify.module_heap
              13630 2 12
              0x2f4e8c1b9a3d7f5e2c6a9b1d4e7f0a3b8c1d4e7f0a3b8c1d4e7f0a3b8c1d
              _ eq_refl eq_refl ltac:(lia))
    as (outcome & Hc & Hb & H).
  exists outcome. split; [exact Hc|]. split; [exact Hb|].
  assert (Hfit : Spec.explanation_fits (Py.at_least_640 3660)
            0x2f4e8c1b9a3d7f5e2c6a9b1d4e7f0a3b8c1d4e7f0a3b8c1d4e7f0a3b8c1d
            2 12 outcome = true).
  { vm_compute in Hc. injection Hc as <-. vm_compute. reflexivity. }
  intros claimed. specialize (H claimed). rewrite Hfit in H. exact H.
Defined.

(** X5: how [verify_game] fails.  An unknown round gives a result with
    [valid] false and no actual outcome, whatever the range, unless the
    round number has more digits than the interpreter's limit, when
    building the message raises [ValueError].  A stored round whose
    randomness is no base 16 literal raises [ValueError]; a stored round
    with [max = min - 1] raises [ZeroDivisionError]. *)
Theorem verify_game_failures (limit : Py.int_max_str_digits)
    (self : verify.DrandVerifier)
    (h : gmap positive (gmap Z verify.round_data))
    (round_num claimed min max : Z) :
  (verify.get_round self round_num h = None ->
   if Py.fits limit round_num
   then
     exists res : verify.verify_result,
       verify.verify_game limit self round_num claimed min max h = Ok res /\
       verify.valid res = false /\ verify.actual_outcome res = None
   else
     verify.verify_game limit self round_num claimed min max h
     = Raise ValueError) /\
  (forall rd : verify.round_data,
     verify.get_round self round_num h = Some rd ->
     Spec.unreadable16 (verify.randomness rd) = true ->
     verify.verify_game limit self round_num claimed min max h
     = Raise ValueError) /\
  (forall (rd : verify.round_data) (drand_int : Z),
     verify.get_round self round_num h = Some rd ->
     Py.int16 (verify.randomness rd) = Ok drand_int ->
     max = min - 1 ->
     verify.verify_game limit self round_num claimed min max h
     = Raise ZeroDivisionError).
Proof.
  split; [|split].
  - intros Hn. rewrite (verify_game_unknown _ _ _ _ _ _ _ Hn).
    destruct (Py.fits limit round_num); [|reflexivity].
    eexists. split; [reflexivity|]. split; reflexivity.
  - intros rd Hrd Hbad%unreadable16_cases.
    rewrite (verify_game_known _ _ _ _ _ _ _ rd Hrd).
    rewrite (int16_refuses _ Hbad). reflexivity.
  - intros rd drand_int Hrd Hint ->.
    rewrite (verify_game_known _ _ _ _ _ _ _ rd Hrd), Hint.
    cbn [mbind result_bind].
    unfold game.calculate_outcome, py_mod. cbn zeta.
    replace (min - 1 - min + 1) with 0 by lia. reflexivity.
Qed.

Lemma verify_game_failures_witness :
  (exists res : verify.verify_result,
     verify.verify_game (Py.at_least_640 3660)
       (fst (verify.init verify.module_heap)) 8739 4 1 6
       verify.module_heap = Ok res /\
     verify.valid res = false /\ verify.actual_outcome res = None) /\
  verify.verify_game (Py.at_least_640 3660)
    (fst (verify.init verify.module_heap)) 17598 4 1 0
    verify.module_heap = Raise ZeroDivisionError.
Proof.
  pose proof (verify_game_failures (Py.at_least_640 3660)
                (fst (verify.init verify.module_heap))
                verify.module_heap 8739 4 1 6) as [H1 _].
  pose proof (verify_game_failures (Py.at_least_640 3660)
                (fst (verify.init verify.module_heap))
                verify.module_heap 17598 4 1 0) as (_ & _ & H3).
  split.
  - apply H1. vm_compute. reflexivity.
  - eapply H3; [vm_compute; reflexivity|vm_compute; reflexivity|lia].
Defined.

(** ** The round store under [add_round] *)

Lemma add_round_alter (now : Z) (self : verify.DrandVerifier)
    (round_num : Z) (randomness : string) (timestamp : option Z)
    (h : gmap positive (gmap Z verify.round_data)) :
  verify.add_round now self round_num randomness timestamp h
  = alter (insert round_num
             (Spec.added_round now round_num randomness timestamp))
      (verify.known_rounds self) h.
Proof. unfold verify.add_round. destruct timestamp; reflexivity. Qed.

Lemma get_round_add_round (now : Z) (self other : verify.DrandVerifier)
    (n m : Z) (randomness : string) (timestamp : option Z)
    (h : gmap positive (gmap Z verify.round_data)) :
  verify.get_round other m
    (verify.add_round now self n randomness timestamp h)
  = if decide (verify.known_rounds self = verify.known_rounds other
               /\ n = m /\ is_Some (h !! verify.known_rounds other))
    then Some (Spec.added_round now n randomness timestamp)
    else verify.get_round other m h.
Proof.
  rewrite add_round_alter. unfold verify.get_round.
  destruct (decide (verify.known_rounds self = verify.known_rounds other))
    as [He|Hne].
  - rewrite He, lookup_alter_eq.
    destruct (h !! verify.known_rounds other) as [d|] eqn:Hd; cbn.
    + destruct (decide (n = m)) as [->|Hnm].
      * rewrite lookup_insert_eq, decide_True; [reflexivity|].
        repeat split. eauto.
      * rewrite lookup_insert_ne by exact Hnm.
        rewrite decide_False; [reflexivity|]. intros (_ & ? & _). contradiction.
    + rewrite decide_False; [reflexivity|].
      intros (_ & _ & [? ?]). discriminate.
  - rewrite lookup_alter_ne by exact Hne.
    rewrite decide_False; [reflexivity|]. intros (? & _). contradiction.
Qed.

(** X6: in a heap reached from the load of the module, [add_round]
    through any verifier changes the round it names and no other: every
    other round number reads through every verifier as before, and of two
    [add_round] calls for one number the later one is read. *)
Theorem add_round_changes_one_round
    (h h1 h2 : gmap positive (gmap Z verify.round_data))
    (now n : Z) (randomness : string) (timestamp : option Z) :
  Spec.reachable h ->
  let self := fst (verify.init h1) in
  let other := fst (verify.init h2) in
  let h' := verify.add_round now self n randomness timestamp h in
  (forall m : Z,
     m <> n -> verify.get_round other m h' = verify.get_round other m h) /\
  (forall (now' : Z) (randomness' : string) (timestamp' : option Z),
     verify.get_round self n
       (verify.add_round now' other n randomness' timestamp' h')
     = Some (Spec.added_round now' n randomness' timestamp')).
Proof.
  intros Hr self other h'. subst self other h'.
  destruct (reachable_stored h Hr) as (d & Hd & _).
  split.
  - intros m Hm. rewrite get_round_add_round.
    rewrite decide_False; [reflexivity|]. intros (_ & ? & _). congruence.
  - intros now' randomness' timestamp'. rewrite get_round_add_round.
    rewrite decide_True; [reflexivity|]. repeat split.
    rewrite add_round_alter, !init_known_rounds, lookup_alter_eq, Hd.
    cbn. eauto.
Qed.

Lemma add_round_changes_one_round_witness :
  let self := fst (verify.init verify.module_heap) in
  let other := fst (verify.init verify.module_heap) in
  let h' := verify.add_round 1708650000 self 13631 "0x1234" None
              verify.module_heap in
  (forall m : Z,
     m <> 13631 ->
     verify.get_round other m h' = verify.get_round other m verify.module_heap)
  /\
  (forall (now' : Z) (randomness' : string) (timestamp' : option Z),
     verify.get_round self 13631
       (verify.add_round now' other 13631 randomness' timestamp' h')
     = Some (Spec.added_round now' 13631 randomness' timestamp')).
Proof.
  apply (add_round_changes_one_round verify.module_heap verify.module_heap
           verify.module_heap 1708650000 13631 "0x1234" None).
  apply Spec.reachable_load.
Defined.

(** X7: a round whose randomness is stored by [add_round] without any
    check makes a later [verify_game] on it raise [ValueError] when the
    string has an ASCII character that is neither a hexadecimal digit
    nor one of blank, x, X, _, +, -, or is an ASCII string without a
    hexadecimal digit. *)
Theorem add_round_unchecked (limit : Py.int_max_str_digits)
    (h : gmap positive (gmap Z verify.round_data))
    (now n claimed min max : Z) (randomness : string)
    (timestamp : option Z) :
  Spec.reachable h ->
  Spec.unreadable16 randomness = true ->
  let self := fst (verify.init h) in
  let h' := verify.add_round now self n randomness timestamp h in
  verify.randomness <$> verify.get_round self n h' = Some randomness /\
  verify.verify_game limit self n claimed min max h' = Raise ValueError.
Proof.
  intros Hr Hbad%unreadable16_cases self h'. subst self h'.
  destruct (reachable_stored h Hr) as (d & Hd & _).
  assert (Hg : verify.get_round (fst (verify.init h)) n
                 (verify.add_round now (fst (verify.init h)) n randomness
                    timestamp h)
               = Some (Spec.added_round now n randomness timestamp)).
  { rewrite get_round_add_round, decide_True; [reflexivity|].
    repeat split. rewrite init_known_rounds, Hd. eauto. }
  split; [rewrite Hg; reflexivity|].
  rewrite (verify_game_known _ _ _ _ _ _ _ _ Hg).
  cbn [Spec.added_round verify.randomness].
  rewrite (int16_refuses _ Hbad). reflexivity.
Qed.

Lemma add_round_unchecked_witness :
  let self := fst (verify.init verify.module_heap) in
  let h' := verify.add_round 1708650000 self 13631 "not hex" None
              verify.module_heap in
  verify.randomness <$> verify.get_round self 13631 h' = Some "not hex" /\
  verify.verify_game (Py.at_least_640 3660) self 13631 4 1 6 h'
  = Raise ValueError.
Proof.
  apply (add_round_unchecked (Py.at_least_640 3660) verify.module_heap
           1708650000 13631 4 1 6 "not hex" None).
  - apply Spec.reachable_load.
  - reflexivity.
Defined.

(** ** The latest round *)

Lemma foldl_max_spec (r : list Z) : forall x : Z,
  (foldl Z.max x r = x \/ foldl Z.max x r ∈ r) /\
  x <= foldl Z.max x r /\
  forall y : Z, y ∈ r -> y <= foldl Z.max x r.
Proof.
  induction r as [|a r IH]; intros x; cbn [foldl].
  - split; [left; reflexivity|]. split; [lia|].
    intros y Hy. apply elem_of_nil in Hy. contradiction.
  - destruct (IH (Z.max x a)) as (Hin & Hle & Hall).
    split; [|split].
    + destruct Hin as [Heq|Hin].
      * rewrite Heq. destruct (Z.max_spec x a) as [[_ ->]|[_ ->]].
        -- right. left.
        -- left. reflexivity.
      * right. right. exact Hin.
    + lia.
    + intros y Hy. apply elem_of_cons in Hy as [->|Hy]; [lia|auto].
Qed.

Lemma max_int_spec (xs : list Z) :
  xs <> [] ->
  exists m : Z,
    Py.max_int xs = Ok m /\ m ∈ xs /\ forall y : Z, y ∈ xs -> y <= m.
Proof.
  destruct xs as [|x r]; [congruence|]. intros _.
  destruct (foldl_max_spec r x) as (Hin & Hle & Hall).
  exists (foldl Z.max x r). split; [reflexivity|]. split.
  - destruct Hin as [->|Hin]; [left|right; exact Hin].
  - intros y Hy. apply elem_of_cons in Hy as [->|Hy]; auto.
Qed.

Lemma get_latest_round_spec (self : verify.DrandVerifier)
    (h : gmap positive (gmap Z verify.round_data))
    (d : gmap Z verify.round_data) :
  h !! verify.known_rounds self = Some d ->
  d <> ∅ ->
  exists (latest : Z) (rd : verify.round_data),
    verify.get_latest_round self h = Ok (Some rd) /\
    d !! latest = Some rd /\
    forall (k : Z) (rd' : verify.round_data), d !! k = Some rd' -> k <= latest.
Proof.
  intros Hd Hne. unfold verify.get_latest_round. rewrite Hd.
  rewrite decide_False by exact Hne.
  destruct (max_int_spec (map_to_list d).*1) as (m & Hm & Hin & Hall).
  { intros Hnil. apply fmap_nil_inv in Hnil.
    apply map_to_list_empty_iff in Hnil. contradiction. }
  rewrite Hm. cbn [mbind result_bind].
  apply list_elem_of_fmap in Hin as ([k rd] & -> & Hin).
  apply elem_of_map_to_list in Hin. cbn [fst]. rewrite Hin.
  exists k, rd. split; [reflexivity|]. split; [exact Hin|].
  intros k' rd' Hk'. apply Hall.
  apply list_elem_of_fmap. exists (k', rd'). split; [reflexivity|].
  apply elem_of_map_to_list, Hk'.
Qed.

(** X8: [get_latest_round] never raises.  On an empty store it returns
    [None]; otherwise it returns the entry stored under the greatest
    round number.  After [add_round] for a number that no stored number
    exceeds, it returns the entry just added. *)
Theorem get_latest_round_greatest (self : verify.DrandVerifier)
    (h : gmap positive (gmap Z verify.round_data))
    (d : gmap Z verify.round_data) :
  h !! verify.known_rounds self = Some d ->
  (d = ∅ -> verify.get_latest_round self h = Ok None) /\
  (d <> ∅ ->
   exists (latest : Z) (rd : verify.round_data),
     verify.get_latest_round self h = Ok (Some rd) /\
     d !! latest = Some rd /\
     forall (k : Z) (rd' : verify.round_data),
       d !! k = Some rd' -> k <= latest) /\
  (forall (now n : Z) (randomness : string) (timestamp : option Z),
     (forall (k : Z) (rd' : verify.round_data), d !! k = Some rd' -> k <= n) ->
     verify.get_latest_round self
       (verify.add_round now self n randomness timestamp h)
     = Ok (Some (Spec.added_round now n randomness timestamp))).
Proof.
  intros Hd. split; [|split].
  - intros ->. unfold verify.get_latest_round. rewrite Hd.
    rewrite decide_True by reflexivity. reflexivity.
  - apply (get_latest_round_spec self h d Hd).
  - intros now n randomness timestamp Hmax.
    set (rec := Spec.added_round now n randomness timestamp).
    assert (Hd' : verify.add_round now self n randomness timestamp h
                  !! verify.known_rounds self = Some (<[n := rec]> d)).
    { rewrite add_round_alter, lookup_alter_eq, Hd. reflexivity. }
    destruct (get_latest_round_spec self _ _ Hd')
      as (latest & rd & Hl & Hrd & Hall).
    { apply insert_non_empty. }
    rewrite Hl. do 2 f_equal.
    assert (Hn : n <= latest) by (apply (Hall n rec), lookup_insert_eq).
    destruct (decide (latest = n)) as [->|Hne].
    + rewrite lookup_insert_eq in Hrd. congruence.
    + rewrite lookup_insert_ne in Hrd by congruence.
      apply Hmax in Hrd. lia.
Qed.

Lemma get_latest_round_greatest_witness :
  exists (latest : Z) (rd : verify.round_data),
    verify.get_latest_round (fst (verify.init verify.module_heap))
      verify.module_heap = Ok (Some rd) /\
    verify.known_rounds_literal !! latest = Some rd /\
    forall (k : Z) (rd' : verify.round_data),
      verify.known_rounds_literal !! k = Some rd' -> k <= latest.
Proof.
  refine (proj1 (proj2 (get_latest_round_greatest
                          (fst (verify.init verify.module_heap))
                          verify.module_heap verify.known_rounds_literal _))
            _).
  - reflexivity.
  - apply insert_non_empty.
Defined.

(** ** The game flow: fetch, derive, verify *)

(** X9: [fetch_drand_value] leaves the heap as it is.  For a stored round
    whose randomness [int] reads it returns that integer, and for
    [min <= max] the outcome [calculate_outcome] derives from it is one
    [verify_game] finds valid on the same verifier.  For a round that is
    not stored it raises nothing and returns the random draw instead,
    and [verify_game] then finds every claim on that round invalid.  In
    both cases [verify_game] raises [ValueError] instead when a number
    its message shows has more digits than the interpreter's limit. *)
Theorem fetch_then_verify (limit : Py.int_max_str_digits)
    (randbits drand_round min max : Z)
    (verifier : option verify.DrandVerifier)
    (h : gmap positive (gmap Z verify.round_data)) :
  let v := default (fst (verify.init h)) verifier in
  (forall (rd : verify.round_data) (drand_value : Z),
     verify.get_round v drand_round h = Some rd ->
     Py.int16 (verify.randomness rd) = Ok drand_value ->
     min <= max ->
     game.fetch_drand_value randbits drand_round verifier h
     = (Ok drand_value, h) /\
     exists outcome : Z,
       game.calculate_outcome drand_value min max = Ok outcome /\
       if Spec.explanation_fits limit drand_value min max outcome
       then
         exists res : verify.verify_result,
           verify.verify_game limit v drand_round outcome min max h
           = Ok res /\
           verify.valid res = true
       else
         verify.verify_game limit v drand_round outcome min max h
         = Raise ValueError) /\
  (verify.get_round v drand_round h = None ->
   game.fetch_drand_value randbits drand_round verifier h
   = (Ok randbits, h) /\
   forall claimed : Z,
     if Py.fits limit drand_round
     then
       exists res : verify.verify_result,
         verify.verify_game limit v drand_round claimed min max h = Ok res /\
         verify.valid res = false
     else
       verify.verify_game limit v drand_round claimed min max h
       = Raise ValueError).
Proof.
  intros v.
  assert (Hf : game.fetch_drand_value randbits drand_round verifier h
               = (match verify.get_round v drand_round h with
                  | Some rd => Py.int16 (verify.randomness rd)
                  | None => Ok randbits
                  end, h)).
  { unfold game.fetch_drand_value. subst v.
    destruct verifier as [v0|]; cbn [default verify.init fst];
      destruct (verify.get_round _ drand_round h); reflexivity. }
  split.
  - intros rd drand_value Hrd Hint Hle. rewrite Hf, Hrd, Hint.
    split; [reflexivity|].
    destruct (calculate_outcome_in_bounds drand_value min max Hle)
      as (outcome & Hc & _).
    exists outcome. split; [exact Hc|].
    rewrite (verify_game_known _ _ _ _ _ _ _ rd Hrd), Hint.
    cbn [mbind result_bind]. rewrite Hc. cbn [mbind result_bind].
    destruct (Spec.explanation_fits limit drand_value min max outcome);
      [|reflexivity].
    eexists. split; [reflexivity|]. cbn [verify.valid]. apply Z.eqb_refl.
  - intros Hn. rewrite Hf, Hn. split; [reflexivity|].
    intros claimed. rewrite (verify_game_unknown _ _ _ _ _ _ _ Hn).
    destruct (Py.fits limit drand_round); [|reflexivity].
    eexists. split; reflexivity.
Qed.

Lemma fetch_then_verify_witness :
  game.fetch_drand_value 42 17598 None verify.module_heap
  = (Ok 0x2e0a3bbff600011a0ae21c92e8d4c99dda94da06284dfe90032bae3f7ebc6339,
     verify.module_heap) /\
  exists (outcome : Z) (res : verify.verify_result),
    game.calculate_outcome
      0x2e0a3bbff600011a0ae21c92e8d4c99dda94da06284dfe90032bae3f7ebc6339 1 6
    = Ok outcome /\
    verify.verify_game (Py.at_least_640 3660)
      (fst (verify.init verify.module_heap)) 17598 outcome
      1 6 verify.module_heap = Ok res /\
    verify.valid res = true.
Proof.
  destruct (proj1 (fetch_then_verify (Py.at_least_640 3660) 42 17598 1 6
                     None verify.module_heap)
              _
              0x2e0a3bbff600011a0ae21c92e8d4c99dda94da06284dfe90032bae3f7ebc6339
              eq_refl eq_refl ltac:(lia))
    as (Hfetch & outcome & Hc & H).
  split; [exact Hfetch|].
  assert (Hfit : Spec.explanation_fits (Py.at_least_640 3660)
            0x2e0a3bbff600011a0ae21c92e8d4c99dda94da06284dfe90032bae3f7ebc6339
            1 6 outcome = true).
  { vm_compute in Hc. injection Hc as <-. vm_compute. reflexivity. }
  rewrite Hfit in H. destruct H as (res & Hres & Hvalid).
  exists outcome, res. split; [exact Hc|]. split; [exact Hres|exact Hvalid].
Defined.

(** ** Printing and reading back a drand value *)

Lemma hexdigit_value_nibble (k : Z) :
  0 <= k < 16 -> Spec.hexdigit_value (Py.hexdigit (Z.to_N k)) = Some k.
Proof.
  intros Hk.
  assert (H : k = 0 \/ k = 1 \/ k = 2 \/ k = 3 \/ k = 4 \/ k = 5 \/ k = 6 \/
              k = 7 \/ k = 8 \/ k = 9 \/ k = 10 \/ k = 11 \/ k = 12 \/
              k = 13 \/ k = 14 \/ k = 15) by lia.
  repeat (destruct H as [->|H]; [reflexivity|]). subst k. reflexivity.
Qed.

Lemma hex_digits_of_spec (fuel : nat) : forall (n : Z) (acc : string),
  0 <= n < 16 ^ Z.of_nat fuel ->
  fuel <> O ->
  Spec.all_hexdigits acc = true ->
  Spec.all_hexdigits (Py.hex_digits_of fuel n acc) = true /\
  Py.hex_digits_of fuel n acc <> EmptyString /\
  Spec.hex_value (Py.hex_digits_of fuel n acc)
  = n * 16 ^ Z.of_nat (String.length acc) + Spec.hex_value acc.
Proof.
  induction fuel as [|fuel IH]; intros n acc Hn Hfuel Hacc; [congruence|].
  cbn [Py.hex_digits_of].
  pose proof (Z.mod_pos_bound n 16 ltac:(lia)) as Hmod.
  pose proof (hexdigit_value_nibble (n mod 16) Hmod) as Hv.
  set (c := Py.hexdigit (Z.to_N (n mod 16))) in *.
  assert (Hacc' : Spec.all_hexdigits (String c acc) = true).
  { cbn [Spec.all_hexdigits]. unfold Spec.is_hexdigit. rewrite Hv, Hacc.
    reflexivity. }
  assert (Hval : Spec.hex_value (String c acc)
                 = n mod 16 * 16 ^ Z.of_nat (String.length acc)
                   + Spec.hex_value acc).
  { cbn [Spec.hex_value]. rewrite Hv. reflexivity. }
  pose proof (Z.div_mod n 16 ltac:(lia)) as Hdm.
  destruct (Z.eqb_spec (n / 16) 0) as [Hz|Hnz].
  - split; [exact Hacc'|]. split; [congruence|].
    rewrite Hval. f_equal. f_equal. lia.
  - rewrite Nat2Z.inj_succ, Z.pow_succ_r in Hn by lia.
    assert (Hq : 0 <= n / 16 < 16 ^ Z.of_nat fuel).
    { split; [apply Z.div_pos; lia|].
      apply Z.div_lt_upper_bound; lia. }
    assert (Hf : fuel <> O).
    { intros ->. cbn in Hq. lia. }
    destruct (IH (n / 16) (String c acc) Hq Hf Hacc') as (H1 & H2 & H3).
    split; [exact H1|]. split; [exact H2|].
    rewrite H3, Hval. cbn [String.length].
    rewrite Nat2Z.inj_succ, Z.pow_succ_r by lia.
    set (p := 16 ^ Z.of_nat (String.length acc)) in *. clearbody p.
    rewrite Hdm at 3. ring.
Qed.

Lemma hex_digits_of_abs (n : Z) :
  let digits :=
    Py.hex_digits_of (S (Z.to_nat (Z.log2 (Z.abs n)))) (Z.abs n) EmptyString in
  Spec.all_hexdigits digits = true /\ digits <> EmptyString /\
  Spec.hex_value digits = Z.abs n.
Proof.
  cbv zeta. set (a := Z.abs n). assert (Ha : 0 <= a) by (subst a; lia).
  clearbody a.
  destruct (hex_digits_of_spec (S (Z.to_nat (Z.log2 a))) a EmptyString)
    as (H1 & H2 & H3); try easy.
  - split; [exact Ha|].
    rewrite Nat2Z.inj_succ, Z2Nat.id by apply Z.log2_nonneg.
    destruct (Z.eq_dec a 0) as [->|Hne]; [cbn; lia|].
    pose proof (Z.log2_spec a ltac:(lia)) as [_ Hlt].
    pose proof (Z.log2_nonneg a).
    eapply Z.lt_le_trans; [exact Hlt|].
    apply Z.pow_le_mono_l. lia.
  - split; [exact H1|]. split; [exact H2|].
    rewrite H3. cbn. lia.
Qed.

Lemma int16_minus_0x_hexdigits (d : string) :
  d <> EmptyString -> Spec.all_hexdigits d = true ->
  Py.int16 (String "-" (String "0" (String "x" d)))
  = Ok (- Spec.hex_value d).
Proof.
  intros Hne Hd. destruct d as [|c r]; [congruence|].
  pose proof Hd as Hd'. cbn [Spec.all_hexdigits] in Hd'.
  apply andb_prop in Hd' as [Hc Hr].
  destruct (hexdigit_facts c Hc) as (v & Hv & Hdv & Hb & Hsp & Hu & _).
  unfold Py.int16.
  change (Py.skip_spaces (String "-" (String "0" (String "x" (String c r)))))
    with (String "-" (String "0" (String "x" (String c r)))).
  change (Py.strip_sign (String "-" (String "0" (String "x" (String c r)))))
    with (-1, String "0" (String "x" (String c r))).
  cbv beta iota.
  change (Py.strip_prefix16 (String "0" (String "x" (String c r))))
    with (if Ascii.eqb c "_" then r else String c r).
  rewrite Hu. cbn [Py.starts_with_underscore]. rewrite Hu.
  rewrite scan_digits_hex by (auto; left; congruence).
  cbn [String.length Nat.add Py.skip_spaces].
  f_equal; lia.
Qed.

(** X10: what [format_drand_value] prints reads back: for every integer
    [n], [int(hex(n), 16)] is [n], through [int] and through both
    [randomness_to_int]; for [n >= 0] the printed string is a valid hex
    string with the [0x] prefix. *)
Theorem format_drand_value_round_trip (n : Z) :
  Py.int16 (game.format_drand_value n) = Ok n /\
  (forall self : verify.DrandVerifier,
     verify.randomness_to_int self (game.format_drand_value n) = Ok n) /\
  randomness.randomness_to_int (game.format_drand_value n) = Ok n /\
  (0 <= n ->
   Spec.valid_hex (game.format_drand_value n) = true /\
   Py.startswith (game.format_drand_value n) "0x" = true).
Proof.
  unfold game.format_drand_value, Py.hex_int.
  destruct (hex_digits_of_abs n) as (Hall & Hne & Hval).
  set (digits := Py.hex_digits_of _ _ _) in *. clearbody digits.
  unfold verify.randomness_to_int, randomness.randomness_to_int.
  destruct (Z.ltb_spec n 0) as [Hneg|Hpos].
  - change ("-0x" +:+ digits) with (String "-" (String "0" (String "x" digits))).
    cbn [Py.startswith Ascii.eqb Bool.eqb andb].
    rewrite (int16_minus_0x_hexdigits digits Hne Hall), Hval.
    replace (- Z.abs n) with n by lia.
    repeat split; try reflexivity; lia.
  - change ("0x" +:+ digits) with (String "0" (String "x" digits)).
    cbn [Py.startswith Py.slice_from Ascii.eqb Bool.eqb andb].
    rewrite (int16_0x_hexdigits digits Hne Hall),
      (int16_hexdigits digits Hne Hall), Hval.
    replace (Z.abs n) with n by lia.
    repeat split; try reflexivity.
    unfold Spec.valid_hex. cbn [Spec.hex_digits Ascii.eqb Bool.eqb andb].
    destruct digits; [congruence|exact Hall].
Qed.

Lemma format_drand_value_round_trip_witness :
  Spec.valid_hex (game.format_drand_value 987654321) = true /\
  Py.startswith (game.format_drand_value 987654321) "0x" = true.
Proof.
  apply (proj2 (proj2 (proj2 (format_drand_value_round_trip 987654321)))).
  lia.
Defined.

(** ** The seed store beyond one round trip *)

Lemma hexdigit_nibble_is_hexdigit (b : byte) :
  Spec.is_hexdigit (Py.hexdigit (Byte.to_N b / 16)) = true /\
  Spec.is_hexdigit (Py.hexdigit (Byte.to_N b mod 16)) = true.
Proof.
  destruct (hex_byte_facts b) as (_ & Hhi & Hlo & _).
  split; apply digit_is_hexdigit; lia.
Qed.

Lemma hex_shape (bs : list byte) :
  String.length (Py.hex bs) = (2 * length bs)%nat /\
  Spec.all_hexdigits (Py.hex bs) = true.
Proof.
  induction bs as [|b r [IHl IHd]]; [split; reflexivity|].
  destruct (hexdigit_nibble_is_hexdigit b) as [Hhi Hlo].
  cbn [Py.hex String.length Spec.all_hexdigits length].
  rewrite IHl, Hhi, Hlo, IHd. split; [lia|reflexivity].
Qed.

(** X11: the string [reveal_seed] returns for a freshly created seed has
    two characters per seed byte, all of them hexadecimal digits, and
    [bytes.fromhex] reads the seed back from it. *)
Theorem reveal_seed_hex (sha : list byte -> string) (raw : list byte)
    (s : string) (st : gmap string (list byte * string)) :
  st !! s = None ->
  exists revealed : string,
    seed.reveal_seed s (snd (seed.create_seed sha raw s st)) = Ok revealed /\
    String.length revealed = (2 * length raw)%nat /\
    Spec.all_hexdigits revealed = true /\
    Py.fromhex revealed = Ok raw.
Proof.
  intros Hnone. exists (Py.hex raw).
  rewrite (create_seed_fresh sha raw s st Hnone). cbn [snd].
  unfold seed.reveal_seed. rewrite lookup_insert_eq.
  destruct (hex_shape raw) as [Hl Hd].
  repeat split; [exact Hl|exact Hd|apply fromhex_hex].
Qed.

Lemma reveal_seed_hex_witness :
  exists revealed : string,
    seed.reveal_seed "PlayerA"
      (snd (seed.create_seed Py.hex [x00; xff; x1a] "PlayerA" seed.init))
    = Ok revealed /\
    String.length revealed = (2 * length [x00; xff; x1a])%nat /\
    Spec.all_hexdigits revealed = true /\
    Py.fromhex revealed = Ok [x00; xff; x1a].
Proof.
  apply (reveal_seed_hex Py.hex [x00; xff; x1a] "PlayerA" seed.init).
  reflexivity.
Defined.

(** X12: for a seat that has a seed, [verify_commitment] on the hex of
    any byte string returns a boolean, [True] exactly when the digest of
    these bytes is the stored commitment. *)
Theorem verify_commitment_exact (sha : list byte -> string)
    (s commitment : string) (raw candidate : list byte)
    (st : gmap string (list byte * string)) :
  st !! s = Some (raw, commitment) ->
  exists b : bool,
    seed.verify_commitment sha s (Py.hex candidate) st = Ok b /\
    (b = true <-> sha candidate = commitment).
Proof.
  intros Hs. unfold seed.verify_commitment. rewrite Hs, fromhex_hex.
  cbn [mbind result_bind]. eexists. split; [reflexivity|].
  apply String.eqb_eq.
Qed.

Lemma verify_commitment_exact_witness :
  exists b : bool,
    seed.verify_commitment Py.hex "A" (Py.hex [xde; xad])
      (snd (seed.create_seed Py.hex [x01] "A" seed.init)) = Ok b /\
    (b = true <-> Py.hex [xde; xad] = Py.hex [x01]).
Proof.
  apply (verify_commitment_exact Py.hex "A" (Py.hex [x01]) [x01] [xde; xad]).
  vm_compute. reflexivity.
Defined.

(** X13: [create_seed] for one seat, whether it succeeds or raises,
    leaves every other seat as it was: [reveal_seed] and
    [verify_commitment] for another seat answer as before. *)
Theorem create_seed_frame (sha : list byte -> string) (raw : list byte)
    (s other seed_hex : string) (st : gmap string (list byte * string)) :
  other <> s ->
  let st' := snd (seed.create_seed sha raw s st) in
  seed.reveal_seed other st' = seed.reveal_seed other st /\
  seed.verify_commitment sha other seed_hex st'
  = seed.verify_commitment sha other seed_hex st.
Proof.
  intros Hne st'. subst st'. unfold seed.create_seed.
  destruct (st !! s) as [entry|]; cbn [snd]; [split; reflexivity|].
  unfold seed.reveal_seed, seed.verify_commitment.
  rewrite lookup_insert_ne by congruence. split; reflexivity.
Qed.

Lemma create_seed_frame_witness :
  let st := snd (seed.create_seed Py.hex [x01] "A" seed.init) in
  let st' := snd (seed.create_seed Py.hex [x02] "B" st) in
  seed.reveal_seed "A" st' = seed.reveal_seed "A" st /\
  seed.verify_commitment Py.hex "A" "01" st'
  = seed.verify_commitment Py.hex "A" "01" st.
Proof.
  apply (create_seed_frame Py.hex [x02] "B" "A" "01"
           (snd (seed.create_seed Py.hex [x01] "A" seed.init))).
  discriminate.
Defined.

(** X14: the empty store pairs every seed with its digest, and
    [create_seed] keeps it so.  In such a store, a seat either has a
    seed, and then verifying what [reveal_seed] returns gives [True], or
    it has none, and then [reveal_seed] raises [KeyError] while
    [verify_commitment] returns [False] for every string. *)
Theorem seeds_consistent_invariant (sha : list byte -> string)
    (st : gmap string (list byte * string)) :
  Spec.seeds_consistent sha st ->
  Spec.seeds_consistent sha seed.init /\
  (forall (raw : list byte) (s : string),
     Spec.seeds_consistent sha (snd (seed.create_seed sha raw s st))) /\
  (forall s : string,
     match seed.reveal_seed s st with
     | Ok revealed => seed.verify_commitment sha s revealed st = Ok true
     | Raise e =>
         e = KeyError /\
         forall seed_hex : string,
           seed.verify_commitment sha s seed_hex st = Ok false
     end).
Proof.
  intros Hc. split; [|split].
  - intros seat raw c H. unfold seed.init in H.
    rewrite lookup_empty in H. discriminate.
  - intros raw s. unfold seed.create_seed.
    destruct (st !! s) as [entry|] eqn:Hs; cbn [snd]; [exact Hc|].
    intros seat raw' c H.
    destruct (decide (seat = s)) as [->|Hne].
    + rewrite lookup_insert_eq in H. congruence.
    + rewrite lookup_insert_ne in H by congruence. apply (Hc seat), H.
  - intros s. unfold seed.reveal_seed, seed.verify_commitment.
    destruct (st !! s) as [[raw c]|] eqn:Hs.
    + rewrite fromhex_hex. cbn [mbind result_bind].
      rewrite (Hc s raw c Hs), String.eqb_refl. reflexivity.
    + split; [reflexivity|]. intros seed_hex. reflexivity.
Qed.

Lemma seeds_consistent_invariant_witness :
  Spec.seeds_consistent Py.hex seed.init /\
  (forall (raw : list byte) (s : string),
     Spec.seeds_consistent Py.hex
       (snd (seed.create_seed Py.hex raw s seed.init))) /\
  (forall s : string,
     match seed.reveal_seed s seed.init with
     | Ok revealed =>
         seed.verify_commitment Py.hex s revealed seed.init = Ok true
     | Raise e =>
         e = KeyError /\
         forall seed_hex : string,
           seed.verify_commitment Py.hex s seed_hex seed.init = Ok false
     end).
Proof.
  apply (seeds_consistent_invariant Py.hex seed.init).
  intros seat raw c H. unfold seed.init in H.
  rewrite lookup_empty in H. discriminate.
Defined.

(** ** The queue under [remove_player] and repeated matching *)

Section MatchmakingQueueMore.

Context {float datetime : Type}.

Implicit Types (p : matching.PendingPlayer float datetime)
  (queue : list (matching.PendingPlayer float datetime)).

Lemma filter_all {A : Type} (P : A -> Prop) `{!forall x, Decision (P x)}
    (l : list A) :
  Forall P l -> filter P l = l.
Proof.
  induction 1 as [|x l Hx _ IH]; [reflexivity|].
  rewrite filter_cons_True by exact Hx. f_equal. exact IH.
Qed.

Lemma filter_none {A : Type} (P : A -> Prop) `{!forall x, Decision (P x)}
    (l : list A) :
  Forall (fun x => ~ P x) l -> filter P l = [].
Proof.
  induction 1 as [|x l Hx _ IH]; [reflexivity|].
  rewrite filter_cons_False by exact Hx. exact IH.
Qed.

(** X15: [remove_player] removes every entry of the address and nothing
    else: what stays are the entries of other addresses, in their order;
    a queue without the address is left as it is, and removing twice is
    removing once. *)
Theorem remove_player_spec (address : string) queue :
  let queue' := matching.remove_player address queue in
  (forall p, p ∈ queue' <-> p ∈ queue /\ matching.player_address p <> address)
  /\
  queue' `sublist_of` queue /\
  (Forall (fun p => matching.player_address p <> address) queue ->
   queue' = queue) /\
  matching.remove_player address queue' = queue' /\
  (matching.get_queue_size queue' <= matching.get_queue_size queue)%Z.
Proof.
  cbv zeta. unfold matching.remove_player, matching.get_queue_size.
  split; [|split; [|split; [|split]]].
  - intros p. rewrite list_elem_of_filter. tauto.
  - apply sublist_filter.
  - apply filter_all.
  - rewrite list_filter_filter. apply list_filter_iff. tauto.
  - apply inj_le, length_filter.
Qed.

(** X16: [find_match] serves each game class in arrival order and leaves
    the other classes alone: it returns the head of the entries of the
    class, the entries of the class that stay are the tail of these, the
    entries of every other class stay as they were, and the size of the
    queue drops by one exactly when an entry is returned. *)
Theorem find_match_by_class (g : string) queue :
  exists (found : option (matching.PendingPlayer float datetime)) queue',
    matching.find_match g queue = Ok (found, queue') /\
    found = head (filter (fun p => matching.game_type p = g) queue) /\
    filter (fun p => matching.game_type p = g) queue'
    = tail (filter (fun p => matching.game_type p = g) queue) /\
    filter (fun p => matching.game_type p <> g) queue'
    = filter (fun p => matching.game_type p <> g) queue /\
    (matching.get_queue_size queue'
     = matching.get_queue_size queue
       - match found with Some _ => 1 | None => 0 end)%Z.
Proof.
  destruct (first_of_class g queue) as [(l1 & p & l2 & -> & Hl & Hp)|Hn].
  - exists (Some p), (l1 ++ l2).
    split; [apply (find_match_found g l1 p l2 Hl Hp)|].
    rewrite !filter_app, !filter_cons_True by exact Hp.
    rewrite (filter_none (fun p => matching.game_type p = g) l1) by exact Hl.
    rewrite (filter_cons_False (fun p => matching.game_type p <> g))
      by (intros H; contradiction).
    repeat split.
    unfold matching.get_queue_size. rewrite !length_app. cbn [length]. lia.
  - exists None, queue.
    split.
    { unfold matching.find_match. apply find_match_loop_none, Hn. }
    rewrite (filter_none (fun p => matching.game_type p = g) queue)
      by exact Hn.
    repeat split. lia.
Qed.

End MatchmakingQueueMore.

(** ** Where [verify_commitment] raises *)







(** ** The rename script *)

Lemma startswith_nil (s : string) : Py.startswith s EmptyString = true.
Proof. destruct s; reflexivity. Qed.

Lemma startswith_cons (c a : ascii) (s p : string) :
  Py.startswith (String c s) (String a p)
  = Ascii.eqb a c && Py.startswith s p.
Proof. reflexivity. Qed.




Section Replace.

Variables old new : string.








End Replace.



(** ** The player's guess *)









(** ** The rolls [validate_rolls] accepts *)

(** X20: [validate_rolls] accepts exactly the pairs of rolls that
    [derive_rolls_from_drand] produces: every pair it accepts is the
    pair of rolls of some drand value below 1536, and the rolls of every
    integer are accepted. *)
Theorem validate_rolls_iff_derived (player1 player2 : Z) :
  DiceGame.validate_rolls player1 player2 = true <->
  exists drand_value : Z,
    0 <= drand_value < 1536 /\
    DiceGame.player1_roll (DiceGame.derive_rolls_from_drand drand_value)
    = player1 /\
    DiceGame.player2_roll (DiceGame.derive_rolls_from_drand drand_value)
    = player2.
Proof.
  split.
  - unfold DiceGame.validate_rolls. intros H.
    repeat (apply andb_prop in H as [H ?]).
    assert (Ha : player1 = 1 \/ player1 = 2 \/ player1 = 3 \/ player1 = 4 \/
                 player1 = 5 \/ player1 = 6) by lia.
    assert (Hb : player2 = 1 \/ player2 = 2 \/ player2 = 3 \/ player2 = 4 \/
                 player2 = 5 \/ player2 = 6) by lia.
    exists (256 * (player2 - 1) + (player1 - 1 - 4 * (player2 - 1)) mod 6).
    rewrite derive_rolls_player1, derive_rolls_player2.
    repeat (destruct Ha as [->|Ha]);
      repeat (destruct Hb as [->|Hb]); subst;
      vm_compute; repeat split; congruence.
  - intros (v & _ & <- & <-).
    rewrite derive_rolls_player1, derive_rolls_player2.
    pose proof (Z.mod_pos_bound v 6 ltac:(lia)).
    pose proof (Z.mod_pos_bound (Z.shiftr v 8) 6 ltac:(lia)).
    unfold DiceGame.validate_rolls.
    repeat (apply andb_true_intro; split); lia.
Qed.

(** ** The two [randomness_to_int] *)

(** X21: the [randomness_to_int] of the verifier and the one of the
    legacy client return the same, value or error, on every string that
    does not start with [0x], and on [0x] followed by a string that
    starts with a hexadecimal digit and not with [0x] or [0X].  They
    differ elsewhere: the verifier reads [0x_1f] and the client refuses
    it, the client reads [0x0x10] and the verifier refuses it. *)
Theorem randomness_to_int_agree (self : verify.DrandVerifier) (s : string) :
  (Py.startswith s "0x" = false ->
   randomness.randomness_to_int s = verify.randomness_to_int self s) /\
  (forall (c : ascii) (r : string),
     Spec.is_hexdigit c = true ->
     Py.startswith (String c r) "0x" = false ->
     Py.startswith (String c r) "0X" = false ->
     randomness.randomness_to_int ("0x" +:+ String c r)
     = verify.randomness_to_int self ("0x" +:+ String c r)) /\
  (verify.randomness_to_int self "0x_1f" = Ok 31 /\
   randomness.randomness_to_int "0x_1f" = Raise ValueError) /\
  (randomness.randomness_to_int "0x0x10" = Ok 16 /\
   verify.randomness_to_int self "0x0x10" = Raise ValueError).
Proof.
  split; [|split; [|split; split; reflexivity]].
  - intros H. unfold randomness.randomness_to_int. rewrite H. reflexivity.
  - intros c r Hc H1 H2.
    destruct (hexdigit_facts c Hc)
      as (v & _ & _ & _ & Hsp & Hu & Hplus & Hminus & _).
    unfold randomness.randomness_to_int, verify.randomness_to_int.
    change ("0x" +:+ String c r) with (String "0" (String "x" (String c r))).
    cbn [Py.startswith Py.slice_from Ascii.eqb Bool.eqb andb].
    unfold Py.int16.
    change (Py.skip_spaces (String "0" (String "x" (String c r))))
      with (String "0" (String "x" (String c r))).
    change (Py.strip_sign (String "0" (String "x" (String c r))))
      with (1, String "0" (String "x" (String c r))).
    cbv beta iota.
    change (Py.strip_prefix16 (String "0" (String "x" (String c r))))
      with (if Ascii.eqb c "_" then r else String c r).
    rewrite Hu. cbn [Py.skip_spaces]. rewrite Hsp.
    cbn [Py.strip_sign]. rewrite Hplus, Hminus.
    assert (Hp : Py.strip_prefix16 (String c r) = String c r).
    { destruct r as [|x r']; [reflexivity|]. cbn [Py.strip_prefix16].
      rewrite !startswith_cons, !startswith_nil, !andb_true_r in H1, H2.
      destruct (Ascii.eqb_spec c "0") as [->|_]; [|reflexivity].
      change (Ascii.eqb "0" "0") with true in H1, H2. cbn [andb] in H1, H2.
      rewrite (Ascii.eqb_sym x "x"), (Ascii.eqb_sym x "X"), H1, H2.
      reflexivity. }
    rewrite Hp. reflexivity.
Qed.

Lemma randomness_to_int_agree_witness :
  randomness.randomness_to_int " ff "
  = verify.randomness_to_int (fst (verify.init verify.module_heap)) " ff " /\
  randomness.randomness_to_int ("0x" +:+ String "f" "f")
  = verify.randomness_to_int (fst (verify.init verify.module_heap))
      ("0x" +:+ String "f" "f").
Proof.
  pose proof (randomness_to_int_agree
                (fst (verify.init verify.module_heap)) " ff ") as (H1 & H2 & _).
  split; [apply H1; reflexivity|apply H2; reflexivity].
Defined.
